(** * Gigbim chat-completions relay: schema normalisation and request pipeline

    A shallow embedding of [src/index.js] (the server without the
    authorization gate) and of the second copy of the server (the one with
    the gate; its text follows the Dockerfile in [src/Dockerfile], the
    handler at lines 240-354), followed by the properties of the tool-schema
    normaliser, the tool formatter, the request composer and the
    authorization gate.  The helper functions [formatToolsForLLM],
    [validateAndCleanSchema] and [cleanSchemaProperties] have the same text
    in both copies.

    Conventions of the embedding.

    - A JavaScript value that can reach the code is a JSON value produced by
      the body parser, or [undefined] (a missing property).  Objects are
      association lists in own-property enumeration order: a list stands
      for an object when its keys are pairwise distinct and in that order
      (array-index names first).  A spread and an object literal define
      own properties under every name; an assignment [o[k] = v] does so
      for every name but [__proto__], which it hands to the prototype
      setter ([set_property]).
    - Numbers are integers.  The code only tests numbers for truthiness,
      compares a length with zero and prints them.  For the first two,
      every behaviour of a double is the behaviour of some integer; the
      text of a number ([number_to_string]) is the one JavaScript prints
      for integers of magnitude below 10^21 only, and no statement below
      depends on it.
    - Recursion of the normaliser is on the [properties] of a copied object;
      it is written with fuel, and a depth bound shows the fuel is enough.
    - Network calls are recorded in a trace; the two upstream services are
      functions of the environment. *)

From Stdlib Require Import List String Ascii ZArith Bool Lia PeanoNat.
From Stdlib Require Import DecimalNat DecimalString.
Import ListNotations.
Open Scope string_scope.

(** ** JavaScript values *)

Unset Elimination Schemes.
Inductive value : Type :=
| VUndefined
| VNull
| VBool (b : bool)
| VNum (n : Z)
| VStr (s : string)
| VArr (elems : list value)
| VObj (props : list (string * value)).
Set Elimination Schemes.

Definition object := list (string * value).

(** [!!v] *)
Definition truthy (v : value) : bool :=
  match v with
  | VUndefined | VNull => false
  | VBool b => b
  | VNum n => negb (n =? 0)%Z
  | VStr s => negb (s =? "")
  | VArr _ | VObj _ => true
  end.

(** [typeof v] *)
Definition typeof (v : value) : string :=
  match v with
  | VUndefined => "undefined"
  | VNull => "object"
  | VBool _ => "boolean"
  | VNum _ => "number"
  | VStr _ => "string"
  | VArr _ | VObj _ => "object"
  end.

(** [Array.isArray(v)] *)
Definition isArray (v : value) : bool :=
  match v with VArr _ => true | _ => false end.

(** [v === s] for a string literal [s] *)
Definition strict_eq_string (v : value) (s : string) : bool :=
  match v with VStr s' => s' =? s | _ => false end.

(** Own property lookup.  On a list with a repeated key the last binding
    counts, as for a JSON document. *)
Fixpoint lookup (k : string) (o : object) : option value :=
  match o with
  | [] => None
  | (k', v) :: rest =>
      match lookup k rest with
      | Some x => Some x
      | None => if k' =? k then Some v else None
      end
  end.

(** [o.k] on a plain object, for a name [Object.prototype] does not define. *)
Definition prop (o : object) (k : string) : value :=
  match lookup k o with Some v => v | None => VUndefined end.

(** An own property [k] of [o] given the value [v]: an existing property
    keeps its place, a new one goes last.  This is what an object literal
    and a spread do for every name, and what the assignment [o.k = v] does
    on a plain object for a name other than [__proto__]. *)
Definition assign (k : string) (v : value) (o : object) : object :=
  match lookup k o with
  | Some _ => map (fun kv => if fst kv =? k then (fst kv, v) else kv) o
  | None => (o ++ [(k, v)])%list
  end.

(** [o[k] = v] on a plain object, for any name.  The name [__proto__] is
    the accessor [Object.prototype] defines: assigning to it runs the
    setter, which replaces the prototype when [v] is an object and does
    nothing otherwise; no own property is created.  The prototype of an
    object is not part of the embedding: the code reads the objects it
    builds this way only through [Object.entries] and [JSON.stringify],
    which look at own properties. *)
Definition set_property (k : string) (v : value) (o : object) : object :=
  if k =? "__proto__" then o else assign k v o.

(** Array index [i] as a property name. *)
Definition index_key (i : nat) : string :=
  NilEmpty.string_of_uint (Nat.to_uint i).

Fixpoint indexed {A : Type} (i : nat) (l : list A) : list (string * A) :=
  match l with
  | [] => []
  | x :: rest => (index_key i, x) :: indexed (S i) rest
  end.

Fixpoint chars (s : string) : list value :=
  match s with
  | EmptyString => []
  | String c rest => VStr (String c EmptyString) :: chars rest
  end.

(** [Object.entries(v)]: own enumerable string-keyed properties, in order. *)
Definition entries (v : value) : object :=
  match v with
  | VObj o => o
  | VArr l => indexed 0 l
  | VStr s => indexed 0 (chars s)
  | _ => []
  end.

(** [{ ...v }]: every own property is defined, in order, on a fresh object. *)
Definition spread (v : value) : object :=
  fold_left (fun acc kv => assign (fst kv) (snd kv) acc) (entries v) [].

(** Nesting depth, the measure of the normaliser's recursion. *)
Fixpoint depth (v : value) : nat :=
  match v with
  | VArr l => S (fold_right (fun x m => Nat.max (depth x) m) 0 l)
  | VObj o => S (fold_right (fun kv m => Nat.max (depth (snd kv)) m) 0 o)
  | _ => 0
  end.

(** ** Exceptions *)

Inductive exn : Type :=
| TypeError      (* property of null or undefined, not iterable, no primitive *)
| FetchError     (* the transport of an outbound call failed *)
| SyntaxError.   (* a body that is not JSON *)

Inductive result (A : Type) : Type :=
| Ok (a : A)
| Throw (e : exn).
Arguments Ok {A} a.
Arguments Throw {A} e.

Definition rbind {A B : Type} (r : result A) (k : A -> result B) : result B :=
  match r with Ok a => k a | Throw e => Throw e end.

Declare Scope js_scope.
Delimit Scope js_scope with js.
Notation "x <- r ;; k" := (rbind r (fun x => k))
  (at level 61, r at next level, right associativity) : js_scope.

Fixpoint mapM {A B : Type} (f : A -> result B) (l : list A) : result (list B) :=
  match l with
  | [] => Ok []
  | x :: rest =>
      (y <- f x ;; ys <- mapM f rest ;; Ok (y :: ys))%js
  end.

(** [v.k] for an arbitrary value: throws on [null] and [undefined]. *)
Definition get (v : value) (k : string) : result value :=
  match v with
  | VUndefined | VNull => Throw TypeError
  | VObj o => Ok (prop o k)
  | VArr l =>
      if k =? "length" then Ok (VNum (Z.of_nat (List.length l)))
      else Ok (prop (indexed 0 l) k)
  | VStr s =>
      if k =? "length" then Ok (VNum (Z.of_nat (String.length s)))
      else Ok (prop (indexed 0 (chars s)) k)
  | VBool _ | VNum _ => Ok VUndefined
  end.

(** [v?.k] *)
Definition optional_get (v : value) (k : string) : value :=
  match v with
  | VUndefined | VNull => VUndefined
  | _ => match get v k with Ok x => x | Throw _ => VUndefined end
  end.

(** Decimal text of a number: what JavaScript prints for an integer of
    magnitude below 10^21 (above, it prints an exponent form, which is not
    modelled). *)
Definition number_to_string (n : Z) : string :=
  NilEmpty.string_of_int (Z.to_int n).

Definition join_comma (parts : list string) : string :=
  String.concat "," parts.

(** [String(v)], as a template literal applies it.  A parsed object has no
    callable [toString] of its own: an own property of that name hides the
    inherited method and the conversion throws. *)
Fixpoint ToString (v : value) : result string :=
  match v with
  | VUndefined => Ok "undefined"
  | VNull => Ok "null"
  | VBool true => Ok "true"
  | VBool false => Ok "false"
  | VNum n => Ok (number_to_string n)
  | VStr s => Ok s
  | VArr l =>
      (parts <- (fix elems (l : list value) : result (list string) :=
                   match l with
                   | [] => Ok []
                   | x :: rest =>
                       (s <- match x with
                             | VUndefined | VNull => Ok ""
                             | _ => ToString x
                             end ;;
                        ss <- elems rest ;;
                        Ok (s :: ss))
                   end) l ;;
       Ok (join_comma parts))%js
  | VObj o =>
      match lookup "toString" o with
      | Some _ => Throw TypeError
      | None => Ok "[object Object]"
      end
  end.

(** ** Schema normaliser ([validateAndCleanSchema], [cleanSchemaProperties]) *)

(** [{ type: "object", properties: {} }] *)
Definition default_schema : value :=
  VObj [("type", VStr "object"); ("properties", VObj [])].

(** [{ type: "string" }] *)
Definition string_schema : value :=
  VObj [("type", VStr "string")].

Definition obind {A B : Type} (r : option A) (k : A -> option B) : option B :=
  match r with Some a => k a | None => None end.

Declare Scope fuel_scope.
Delimit Scope fuel_scope with fuel.
Notation "x <- r ;; k" := (obind r (fun x => k))
  (at level 61, r at next level, right associativity) : fuel_scope.

(** [cleanSchemaProperties(properties)], the recursive call being a
    parameter; [None] is a call that ran out of fuel. *)
Definition cleanSchemaProperties
    (validateAndCleanSchema : value -> option value) (properties : value)
    : option object :=
  fold_left
    (fun cleanProperties kv =>
       let key := fst kv in
       let value := snd kv in
       (cleanProperties <- cleanProperties ;;
        if typeof value =? "object" then
          cleaned <- validateAndCleanSchema value ;;
          Some (set_property key cleaned cleanProperties)
        else
          Some (set_property key value cleanProperties))%fuel)
    (entries properties) (Some []).

(** The body of [validateAndCleanSchema(schema)]. *)
Definition validateAndCleanSchema_body
    (validateAndCleanSchema : value -> option value) (schema : value)
    : option value :=
  if negb (truthy schema) || negb (typeof schema =? "object") then
    Some default_schema
  else
    let cleanSchema := spread schema in
    let cleanSchema :=
      if negb (truthy (prop cleanSchema "type"))
      then assign "type" (VStr "object") cleanSchema
      else cleanSchema in
    let cleanSchema :=
      if negb (truthy (prop cleanSchema "properties"))
      then assign "properties" (VObj []) cleanSchema
      else cleanSchema in
    (cleanSchema <-
       (if truthy (prop cleanSchema "properties")
           && (typeof (prop cleanSchema "properties") =? "object")
        then
          cleanProperties <-
            cleanSchemaProperties validateAndCleanSchema
              (prop cleanSchema "properties") ;;
          Some (assign "properties" (VObj cleanProperties) cleanSchema)
        else Some cleanSchema) ;;
     let cleanSchema :=
       if strict_eq_string (prop cleanSchema "type") "array"
          && negb (truthy (prop cleanSchema "items"))
       then assign "items" string_schema cleanSchema
       else cleanSchema in
     Some (VObj cleanSchema))%fuel.

Fixpoint validateAndCleanSchema_fuel (fuel : nat) (schema : value)
    : option value :=
  match fuel with
  | O => None
  | S fuel' =>
      validateAndCleanSchema_body (validateAndCleanSchema_fuel fuel') schema
  end.

(** [validateAndCleanSchema(schema)], with the fuel its depth calls for
    ([validateAndCleanSchema_fuel_enough] below: that much is enough). *)
Definition validateAndCleanSchema (schema : value) : value :=
  match validateAndCleanSchema_fuel (S (depth schema)) schema with
  | Some cleanSchema => cleanSchema
  | None => VUndefined
  end.

(** ** Tool formatter ([formatToolsForLLM]) *)

(** The callback of [tools.map]. *)
Definition formatTool (tool : value) : result value :=
  (name <- get tool "name" ;;
   description <- get tool "description" ;;
   description <-
     (if truthy description then Ok description
      else
        name' <- get tool "name" ;;
        text <- ToString name' ;;
        Ok (VStr ("Execute " ++ text))) ;;
   inputSchema <- get tool "inputSchema" ;;
   let parameters :=
     let cleaned := validateAndCleanSchema inputSchema in
     if truthy cleaned then cleaned else default_schema in
   Ok (VObj [("type", VStr "function");
             ("function", VObj [("name", name);
                                ("description", description);
                                ("parameters", parameters)])]))%js.

(** [formatToolsForLLM(tools)]; the array it returns is given by the list of
    its elements. *)
Definition formatToolsForLLM (tools : value) : result (list value) :=
  if negb (truthy tools) || negb (isArray tools) then Ok []
  else
    match tools with
    | VArr elems => mapM formatTool elems
    | _ => Ok []
    end.

(** ** JSON documents and [JSON.stringify] *)

Unset Elimination Schemes.
Inductive json : Type :=
| JNull
| JBool (b : bool)
| JNum (n : Z)
| JStr (s : string)
| JArr (elems : list json)
| JObj (members : list (string * json)).
Set Elimination Schemes.

(** [JSON.stringify(v)], up to the concrete text: the document that is
    written.  [None] is [undefined]; a property whose value is [undefined]
    is left out, an [undefined] array element is written [null]. *)
Fixpoint JSON_stringify (v : value) : option json :=
  match v with
  | VUndefined => None
  | VNull => Some JNull
  | VBool b => Some (JBool b)
  | VNum n => Some (JNum n)
  | VStr s => Some (JStr s)
  | VArr l =>
      Some (JArr (map (fun x => match JSON_stringify x with
                                | Some j => j
                                | None => JNull
                                end) l))
  | VObj o =>
      Some (JObj ((fix members (o : list (string * value)) :=
                     match o with
                     | [] => []
                     | (k, x) :: rest =>
                         match JSON_stringify x with
                         | Some j => (k, j) :: members rest
                         | None => members rest
                         end
                     end) o))
  end.

(** Member of a document by name. *)
Fixpoint member (k : string) (ms : list (string * json)) : option json :=
  match ms with
  | [] => None
  | (k', j) :: rest => if k' =? k then Some j else member k rest
  end.

(** ** The request handlers *)

(** What an outbound [fetch] resolves to. *)
Record upstream : Type := {
  upstream_status : Z;
  upstream_json : option value  (* [None]: the body is not JSON *)
}.

(** [response.ok] *)
Definition upstream_ok (r : upstream) : bool :=
  ((200 <=? upstream_status r) && (upstream_status r <=? 299))%Z.

(** The process environment and the two services; [None] from a service is
    a transport failure. *)
Record env : Type := {
  OPENAI_API_KEY : option string;
  auth_service : option json -> option upstream;
  llm_api : string -> option json -> option upstream
}.

Inductive net_call : Type :=
| AuthValidate (body : option json)
| ChatCompletions (authorization : string) (body : option json).

Record request : Type := {
  req_authorization : option string;  (* [req.headers.authorization] *)
  req_body : value                    (* [req.body] *)
}.

Inductive reply : Type :=
| ReplyJson (status : Z) (body : value)  (* [res.status(status).json(body)] *)
| ReplyException (e : exn)               (* [res.status(500).json({ error: error.message })] *)
| ReplyStream (r : upstream).            (* event-stream headers, upstream body piped *)

Definition error_body (message : string) : value :=
  VObj [("error", VStr message)].

(** A handler step: the calls made so far, and how the step ended. *)
Inductive step (A : Type) : Type :=
| Continue (a : A)
| Return (r : reply)
| Raise (e : exn).
Arguments Continue {A} a.
Arguments Return {A} r.
Arguments Raise {A} e.

Definition action (A : Type) : Type := list net_call -> list net_call * step A.

Definition ret {A : Type} (a : A) : action A := fun t => (t, Continue a).

Definition abind {A B : Type} (m : action A) (k : A -> action B) : action B :=
  fun t =>
    match m t with
    | (t', Continue a) => k a t'
    | (t', Return r) => (t', Return r)
    | (t', Raise e) => (t', Raise e)
    end.

Declare Scope action_scope.
Delimit Scope action_scope with action.
Notation "x <- r ;; k" := (abind r (fun x => k))
  (at level 61, r at next level, right associativity) : action_scope.

Definition lift {A : Type} (r : result A) : action A :=
  fun t => match r with Ok a => (t, Continue a) | Throw e => (t, Raise e) end.

Definition respond {A : Type} (r : reply) : action A := fun t => (t, Return r).

(** [try { body } catch (error) { handler }] *)
Definition try_catch {A : Type} (body : action A) (handler : exn -> action A)
    : action A :=
  fun t =>
    match body t with
    | (t', Raise e) => handler e t'
    | other => other
    end.

(** [await fetch(...)] *)
Definition fetch (call : net_call) (answer : option upstream) : action upstream :=
  fun t =>
    ((t ++ [call])%list,
     match answer with Some r => Continue r | None => Raise FetchError end).

(** [await response.json()] *)
Definition response_json (r : upstream) : action value :=
  lift (match upstream_json r with Some v => Ok v | None => Throw SyntaxError end).

(** The handler's outer [try]/[catch], run from an empty trace.  Every path
    of a handler ends in a reply or an exception. *)
Definition run (body : action Empty_set) : list net_call * reply :=
  match body [] with
  | (t, Return r) => (t, r)
  | (t, Raise e) => (t, ReplyException e)
  | (t, Continue impossible) => match impossible with end
  end.

(** A destructured field with its default. *)
Definition field (body : value) (k : string) (default : value) : result value :=
  (v <- get body k ;;
   Ok (match v with VUndefined => default | _ => v end))%js.

(** [\s] on a header value *)
Definition is_space (c : ascii) : bool :=
  let n := nat_of_ascii c in
  (((9 <=? n) && (n <=? 13)) || (n =? 32) || (n =? 160))%nat.

Fixpoint skip_spaces (s : string) : string :=
  match s with
  | String c rest => if is_space c then skip_spaces rest else s
  | EmptyString => s
  end.

Definition lower (c : ascii) : ascii :=
  let n := nat_of_ascii c in
  if ((65 <=? n) && (n <=? 90))%nat then ascii_of_nat (n + 32) else c.

Fixpoint lowercase (s : string) : string :=
  match s with
  | EmptyString => EmptyString
  | String c rest => String (lower c) (lowercase rest)
  end.

(** [authHeader.replace(/^Bearer\s+/i, '')] *)
Definition strip_bearer (authHeader : string) : string :=
  if lowercase (substring 0 6 authHeader) =? "bearer" then
    match substring 6 (String.length authHeader - 6) authHeader with
    | String c rest => if is_space c then skip_spaces rest else authHeader
    | EmptyString => authHeader
    end
  else authHeader.

(** [[...v]]: the elements an array literal spreads. *)
Definition iterate (v : value) : result (list value) :=
  match v with
  | VArr l => Ok l
  | VStr s => Ok (chars s)
  | _ => Throw TypeError
  end.

Section Pipeline.

(** The text of the file's [SYSTEM_PROMPT] constant. *)
Variable SYSTEM_PROMPT : string.

(** [s > 0] for a string [s]: the comparison of the number the string
    denotes, which is floating-point parsing and stays a parameter. *)
Variable string_positive : string -> bool.

(** [v > 0] *)
Definition greater_than_zero (v : value) : result bool :=
  match v with
  | VUndefined => Ok false
  | VNull => Ok false
  | VBool b => Ok b
  | VNum n => Ok (0 <? n)%Z
  | VStr s => Ok (string_positive s)
  | VArr _ | VObj _ => (s <- ToString v ;; Ok (string_positive s))%js
  end.

Definition system_message : value :=
  VObj [("role", VStr "system"); ("content", VStr SYSTEM_PROMPT)].

(** The value of [finalMessages] after the system-prompt block. *)
Definition finalMessages (includeSystemPrompt messages : value) : result value :=
  if truthy includeSystemPrompt && truthy messages then
    (len <- get messages "length" ;;
     positive <- greater_than_zero len ;;
     if (positive : bool) then
       first <- get messages "0" ;;
       let hasSystemPrompt :=
         strict_eq_string (optional_get first "role") "system" in
       if negb hasSystemPrompt then
         rest <- iterate messages ;;
         Ok (VArr (system_message :: rest))
       else Ok messages
     else Ok messages)%js
  else Ok messages.

(** The [requestBody] object literal. *)
Definition requestBody (model finalMessages : value)
    (formattedTools : list value) (stream : value) : value :=
  VObj [("model", model);
        ("messages", finalMessages);
        ("tools", if (0 <? List.length formattedTools)%nat
                  then VArr formattedTools else VUndefined);
        ("tool_choice", if (0 <? List.length formattedTools)%nat
                        then VStr "auto" else VUndefined);
        ("max_completion_tokens", VNum 4000);
        ("stream", stream)].

(** From the API-key check to the end of the handler; the text is the same
    in both copies of the server. *)
Definition complete (e : env) (messages tools model stream includeSystemPrompt : value)
    : action Empty_set :=
  match OPENAI_API_KEY e with
  | None | Some "" => respond (ReplyJson 500 (error_body "OpenAI API key not configured"))
  | Some apiKey =>
      (final <- lift (finalMessages includeSystemPrompt messages) ;;
       formattedTools <-
         lift (if truthy tools then formatToolsForLLM tools else Ok []) ;;
       let body := JSON_stringify (requestBody model final formattedTools stream) in
       response <- fetch (ChatCompletions ("Bearer " ++ apiKey) body)
                         (llm_api e ("Bearer " ++ apiKey) body) ;;
       if negb (upstream_ok response) then
         error <- response_json response ;;
         respond (ReplyJson (upstream_status response) error)
       else if negb (truthy stream) then
         data <- response_json response ;;
         respond (ReplyJson 200 data)
       else respond (ReplyStream response))%action
  end.

(** [app.post('/api/chat/completions', ...)] of [src/index.js]. *)
Definition handler_index (e : env) (req : request) : list net_call * reply :=
  run
    (messages <- lift (get (req_body req) "messages") ;;
     tools <- lift (get (req_body req) "tools") ;;
     model <- lift (field (req_body req) "model" (VStr "gpt-5")) ;;
     stream <- lift (field (req_body req) "stream" (VBool false)) ;;
     includeSystemPrompt <-
       lift (field (req_body req) "includeSystemPrompt" (VBool true)) ;;
     complete e messages tools model stream includeSystemPrompt)%action.

(** The authorization gate of the second copy of the server. *)
Definition auth_gate (e : env) (req : request) : action unit :=
  match req_authorization req with
  | None | Some "" =>
      respond (ReplyJson 401 (error_body "No authorization token provided"))
  | Some authHeader =>
      let token := strip_bearer authHeader in
      try_catch
        (let body := JSON_stringify (VObj [("token", VStr token)]) in
         validationResponse <- fetch (AuthValidate body) (auth_service e body) ;;
         if negb (upstream_ok validationResponse) then
           respond (ReplyJson 401 (error_body "Token validation request failed"))
         else
           validationData <- response_json validationResponse ;;
           isValid <- lift (get validationData "isValid") ;;
           if negb (truthy isValid) then
             respond (ReplyJson 401 (error_body "Invalid token"))
           else
             isFreeTrial <- lift (get validationData "isFreeTrial") ;;
             if negb (truthy isFreeTrial) then
               respond (ReplyJson 403 (error_body
                 "Subscription required (Free trial expired or not active)"))
             else ret tt)%action
        (fun _ => respond (ReplyJson 500 (error_body "Authentication check failed")))
  end.

(** [app.post('/api/chat/completions', ...)] of the second copy. *)
Definition handler_gated (e : env) (req : request) : list net_call * reply :=
  run
    (messages <- lift (get (req_body req) "messages") ;;
     tools <- lift (get (req_body req) "tools") ;;
     model <- lift (field (req_body req) "model" (VStr "gpt-5")) ;;
     stream <- lift (field (req_body req) "stream" (VBool false)) ;;
     includeSystemPrompt <-
       lift (field (req_body req) "includeSystemPrompt" (VBool true)) ;;
     _ <- auth_gate e req ;;
     complete e messages tools model stream includeSystemPrompt)%action.

End Pipeline.

(** ** Auxiliary definitions used in statements *)

(** Every pair of [l] defined in turn on [acc], its value passed through [g]. *)
Definition define_all (g : value -> value) (l acc : object) : object :=
  fold_left (fun acc kv => assign (fst kv) (g (snd kv)) acc) l acc.

(** The entries an assignment in a loop turns into own properties: all but
    the one named [__proto__]. *)
Definition settable (l : object) : object :=
  filter (fun kv => negb (fst kv =? "__proto__")) l.

(** What [cleanSchemaProperties] stores for a property value. *)
Definition clean_value (v : value) : value :=
  if typeof v =? "object" then validateAndCleanSchema v else v.

Definition keys (o : object) : list string := map fst o.

(** The step of [assign] on a present key. *)
Definition replace_at (k : string) (v : value) (kv : string * value) :=
  if fst kv =? k then (fst kv, v) else kv.

(** The object after each of the first two conditional assignments of
    [validateAndCleanSchema], and after the last one. *)
Definition with_type (cleanSchema : object) : object :=
  if negb (truthy (prop cleanSchema "type"))
  then assign "type" (VStr "object") cleanSchema
  else cleanSchema.

Definition with_properties (cleanSchema : object) : object :=
  if negb (truthy (prop cleanSchema "properties"))
  then assign "properties" (VObj []) cleanSchema
  else cleanSchema.

Definition with_items (cleanSchema : object) : object :=
  if strict_eq_string (prop cleanSchema "type") "array"
     && negb (truthy (prop cleanSchema "items"))
  then assign "items" string_schema cleanSchema
  else cleanSchema.

(** [schema] passes the guard of [validateAndCleanSchema]. *)
Definition is_object (schema : value) : bool :=
  truthy schema && (typeof schema =? "object").

Definition is_plain_object (v : value) : bool :=
  match v with VObj _ => true | _ => false end.

Definition is_undefined (v : value) : bool :=
  match v with VUndefined => true | _ => false end.

(** The nodes of a schema: the schema itself and, through a [properties]
    mapping, the nodes of every property value. *)
Inductive node_of (n : value) : value -> Prop :=
| node_root : node_of n n
| node_property (o q : object) (k : string) (c : value) :
    prop o "properties" = VObj q -> In (k, c) q -> node_of n c ->
    node_of n (VObj o).

(** The invariant the data model states for a node: [type] is present, an
    object-typed node has a [properties] mapping, an array-typed node has
    [items]. *)
Definition schema_invariant (node : value) : bool :=
  match node with
  | VObj o =>
      negb (is_undefined (prop o "type"))
      && (if strict_eq_string (prop o "type") "object"
          then is_plain_object (prop o "properties") else true)
      && (if strict_eq_string (prop o "type") "array"
          then negb (is_undefined (prop o "items")) else true)
  | _ => false
  end.

(** What the normaliser establishes on a node that is an object: [type] and
    [properties] are truthy, [properties] is a mapping unless it is a value
    that is not an object, and an array type comes with truthy [items]. *)
Definition node_ok (node : value) : bool :=
  match node with
  | VObj o =>
      truthy (prop o "type")
      && truthy (prop o "properties")
      && (if typeof (prop o "properties") =? "object"
          then is_plain_object (prop o "properties") else true)
      && (if strict_eq_string (prop o "type") "array"
          then truthy (prop o "items") else true)
  | _ => false
  end.

(** The nodes of an input that the normaliser visits: the input itself
    and, through the [properties] of a visited object, every property value
    whose [typeof] is ["object"]. *)
Inductive input_node (s : value) : value -> Prop :=
| input_root : input_node s s
| input_property (i : value) (k : string) (v : value) :
    input_node s i ->
    is_object i = true ->
    is_object (prop (spread i) "properties") = true ->
    In (k, v) (entries (prop (spread i) "properties")) ->
    typeof v = "object" ->
    input_node s v.

(** How an output node stands to the input node [i] it is made from: its
    [type] is the input's truthy [type], ["object"] otherwise (also when
    [i] is not an object); its [properties] is the input's truthy
    [properties] when that is not an object, and a mapping in every other
    case; an array type comes with truthy [items]; truthy [items] of the
    input are there as they were. *)
Definition node_from (i node : value) : Prop :=
  exists out,
    node = VObj out
    /\ prop out "type"
       = (if is_object i && truthy (prop (spread i) "type")
          then prop (spread i) "type" else VStr "object")
    /\ (if is_object i
           && truthy (prop (spread i) "properties")
           && negb (typeof (prop (spread i) "properties") =? "object")
        then prop out "properties" = prop (spread i) "properties"
        else is_plain_object (prop out "properties") = true)
    /\ (strict_eq_string (prop out "type") "array" = true ->
        truthy (prop out "items") = true)
    /\ (is_object i = true -> truthy (prop (spread i) "items") = true ->
        prop out "items" = prop (spread i) "items").

(** Every value of the input's [properties] mapping [po] is stored
    normalised in the output. *)
Definition every_property_normalised (o po : object) : Prop :=
  exists out q,
    validateAndCleanSchema (VObj o) = VObj out
    /\ prop out "properties" = VObj q
    /\ forall k v, lookup k po = Some v ->
                   lookup k q = Some (validateAndCleanSchema v).

(** A tool descriptor of the data model: an object whose [name] is a
    string. *)
Definition ToolDescriptor (tool : value) : Prop :=
  exists o n, tool = VObj o /\ prop o "name" = VStr n.

(** The request on which a handler runs [complete]: the formatted tools. *)
Definition formatted_tools (tools : value) : result (list value) :=
  if truthy tools then formatToolsForLLM tools else Ok [].

(** ** Requests on which the two copies of the server differ *)

(** An API key is configured, the auth service answers that the token is
    not valid, the LLM answers 200. *)
Definition rejecting_env : env := {|
  OPENAI_API_KEY := Some "sk-test";
  auth_service := fun _ =>
    Some {| upstream_status := 200;
            upstream_json := Some (VObj [("isValid", VBool false);
                                         ("isFreeTrial", VBool false)]) |};
  llm_api := fun _ _ =>
    Some {| upstream_status := 200;
            upstream_json := Some (VObj [("id", VStr "chatcmpl-1")]) |}
|}.

Definition hello_body : value :=
  VObj [("messages", VArr [VObj [("role", VStr "user");
                                 ("content", VStr "hello")]])].

(** No [Authorization] header. *)
Definition anonymous_request : request :=
  {| req_authorization := None; req_body := hello_body |}.

(** A token the auth service rejects. *)
Definition rejected_request : request :=
  {| req_authorization := Some "Bearer expired"; req_body := hello_body |}.

(** The body both requests make the server send to the LLM. *)
Definition hello_outbound (SYSTEM_PROMPT : string) : option json :=
  Some (JObj [("model", JStr "gpt-5");
              ("messages",
               JArr [JObj [("role", JStr "system");
                           ("content", JStr SYSTEM_PROMPT)];
                     JObj [("role", JStr "user");
                           ("content", JStr "hello")]]);
              ("max_completion_tokens", JNum 4000);
              ("stream", JBool false)]).

(** The text [Array.prototype.join] takes for an element. *)
Definition element_text (x : value) : result string :=
  match x with
  | VUndefined | VNull => Ok ""
  | _ => ToString x
  end.

(** How [complete] ends once the LLM call is made: the part of the handler
    after [await fetch(...)]. *)
Definition relay (stream : value) (answer : option upstream) : step Empty_set :=
  match answer with
  | None => Raise FetchError
  | Some response =>
      if negb (upstream_ok response) then
        match upstream_json response with
        | Some error => Return (ReplyJson (upstream_status response) error)
        | None => Raise SyntaxError
        end
      else if negb (truthy stream) then
        match upstream_json response with
        | Some data => Return (ReplyJson 200 data)
        | None => Raise SyntaxError
        end
      else Return (ReplyStream response)
  end.

(** The reply [run] gives for the way a handler body ended. *)
Definition finish (s : step Empty_set) : reply :=
  match s with
  | Return r => r
  | Raise e => ReplyException e
  | Continue impossible => match impossible with end
  end.

(** The body the auth service is called with for a header value. *)
Definition token_body (authHeader : string) : option json :=
  JSON_stringify (VObj [("token", VStr (strip_bearer authHeader))]).

(** ** Environments and requests for the relay *)

(** An API key is configured, the auth service accepts every token, the LLM
    answers with the given status and body. *)
Definition answering_env (status : Z) (body : option value) : env := {|
  OPENAI_API_KEY := Some "sk-test";
  auth_service := fun _ =>
    Some {| upstream_status := 200;
            upstream_json := Some (VObj [("isValid", VBool true);
                                         ("isFreeTrial", VBool true)]) |};
  llm_api := fun _ _ =>
    Some {| upstream_status := status; upstream_json := body |}
|}.

(** As [answering_env], the transport to the LLM failing. *)
Definition unreachable_llm_env : env := {|
  OPENAI_API_KEY := Some "sk-test";
  auth_service := auth_service (answering_env 200 None);
  llm_api := fun _ _ => None
|}.

(** [{ messages: [], stream: true }] with a token. *)
Definition streaming_request : request :=
  {| req_authorization := Some "Bearer t";
     req_body := VObj [("messages", VArr []); ("stream", VBool true)] |}.

Definition streaming_outbound : option json :=
  Some (JObj [("model", JStr "gpt-5"); ("messages", JArr []);
              ("max_completion_tokens", JNum 4000); ("stream", JBool true)]).

(** * Properties *)

Example normalise_nested :
  validateAndCleanSchema
    (VObj [("properties", VObj [("a", VNull); ("b", VStr "x");
                                ("c", VObj [("type", VStr "array")])])])
  = VObj [("properties",
           VObj [("a", default_schema); ("b", VStr "x");
                 ("c", VObj [("type", VStr "array"); ("properties", VObj []);
                             ("items", string_schema)])]);
          ("type", VStr "object")].
Proof. reflexivity. Qed.

Example normalise_array_input :
  validateAndCleanSchema (VArr [VNum 1; VNum 2])
  = VObj [("0", VNum 1); ("1", VNum 2); ("type", VStr "object");
          ("properties", VObj [])].
Proof. reflexivity. Qed.

(** ** Objects as association lists *)

Lemma lookup_app (k : string) (o1 o2 : object) :
  lookup k (o1 ++ o2)%list
  = match lookup k o2 with Some x => Some x | None => lookup k o1 end.
Proof.
  induction o1 as [|[k1 v1] o1 IH]; simpl.
  - destruct (lookup k o2); reflexivity.
  - rewrite IH. destruct (lookup k o2); reflexivity.
Qed.

Lemma lookup_In (k : string) (v : value) (o : object) :
  lookup k o = Some v -> In (k, v) o.
Proof.
  induction o as [|[k1 v1] o IH]; simpl; [discriminate|].
  destruct (lookup k o) as [x|].
  - intros H. right. apply IH. exact H.
  - destruct (String.eqb_spec k1 k) as [->|]; [|discriminate].
    intros H. injection H as ->. left. reflexivity.
Qed.

Lemma lookup_None (k : string) (o : object) :
  lookup k o = None <-> ~ In k (keys o).
Proof.
  induction o as [|[k1 v1] o IH]; simpl.
  - split; auto.
  - destruct (lookup k o) as [x|].
    + split; [discriminate|]. intros H. exfalso. apply H. right.
      apply Decidable.not_not; [|intros H1; apply IH in H1; discriminate].
      destruct (in_dec string_dec k (keys o)); [left|right]; assumption.
    + destruct (String.eqb_spec k1 k) as [->|Hne].
      * split; [discriminate|]. intros H. exfalso. apply H. left. reflexivity.
      * split; [|reflexivity]. intros _ [H|H]; [contradiction|].
        apply IH in H; [exact H|reflexivity].
Qed.

Lemma lookup_unique (k : string) (v : value) (o : object) :
  NoDup (keys o) -> In (k, v) o -> lookup k o = Some v.
Proof.
  induction o as [|[k1 v1] o IH]; simpl; [contradiction|].
  intros Hnd [H|H].
  - injection H as -> ->. inversion Hnd as [|? ? Hnot _]; subst.
    apply lookup_None in Hnot. rewrite Hnot, String.eqb_refl. reflexivity.
  - inversion Hnd as [|? ? Hnot Hnd']; subst. rewrite (IH Hnd' H). reflexivity.
Qed.

Lemma keys_replace (k : string) (v : value) (o : object) :
  keys (map (replace_at k v) o) = keys o.
Proof.
  unfold keys. rewrite map_map. apply map_ext. intros [k1 v1].
  unfold replace_at; simpl. destruct (k1 =? k); reflexivity.
Qed.

Lemma lookup_replace (k k' : string) (v : value) (o : object) :
  lookup k' (map (replace_at k v) o)
  = if k =? k' then match lookup k o with Some _ => Some v | None => None end
    else lookup k' o.
Proof.
  induction o as [|[k1 v1] o IH]; simpl.
  - destruct (k =? k'); reflexivity.
  - rewrite IH. unfold replace_at; simpl.
    destruct (String.eqb_spec k1 k) as [->|Hk1]; simpl;
      destruct (String.eqb_spec k k') as [Hk|Hk]; subst;
      repeat match goal with
             | |- context [lookup ?a ?b] => destruct (lookup a b)
             end;
      rewrite ?String.eqb_refl; try reflexivity;
      repeat match goal with
             | |- context [String.eqb ?a ?b] => destruct (String.eqb_spec a b)
             end; congruence.
Qed.

Lemma assign_present (k : string) (v x : value) (o : object) :
  lookup k o = Some x -> assign k v o = map (replace_at k v) o.
Proof. unfold assign. intros ->. reflexivity. Qed.

Lemma assign_absent (k : string) (v : value) (o : object) :
  lookup k o = None -> assign k v o = (o ++ [(k, v)])%list.
Proof. unfold assign. intros ->. reflexivity. Qed.

Lemma lookup_assign (k k' : string) (v : value) (o : object) :
  lookup k' (assign k v o) = if k =? k' then Some v else lookup k' o.
Proof.
  destruct (lookup k o) as [x|] eqn:E.
  - rewrite (assign_present _ _ _ _ E), lookup_replace, E. reflexivity.
  - rewrite (assign_absent _ _ _ E), lookup_app. simpl.
    destruct (k =? k'); reflexivity.
Qed.

Lemma prop_assign (k k' : string) (v : value) (o : object) :
  prop (assign k v o) k' = if k =? k' then v else prop o k'.
Proof. unfold prop. rewrite lookup_assign. destruct (k =? k'); reflexivity. Qed.

Lemma NoDup_assign (k : string) (v : value) (o : object) :
  NoDup (keys o) -> NoDup (keys (assign k v o)).
Proof.
  intros Hnd. destruct (lookup k o) as [x|] eqn:E.
  - rewrite (assign_present _ _ _ _ E), keys_replace. exact Hnd.
  - rewrite (assign_absent _ _ _ E). unfold keys. rewrite map_app. simpl.
    apply NoDup_app; [exact Hnd|repeat constructor; simpl; tauto|].
    intros a Ha [<-|[]]. apply lookup_None in E. contradiction.
Qed.

Lemma In_assign (k k' : string) (v v' : value) (o : object) :
  In (k', v') (assign k v o) -> (k' = k /\ v' = v) \/ In (k', v') o.
Proof.
  destruct (lookup k o) as [x|] eqn:E.
  - rewrite (assign_present _ _ _ _ E). rewrite in_map_iff.
    intros [[k1 v1] [Heq Hin]]. unfold replace_at in Heq; simpl in Heq.
    destruct (String.eqb_spec k1 k) as [->|].
    + injection Heq as <- <-. left. split; reflexivity.
    + injection Heq as <- <-. right. exact Hin.
  - rewrite (assign_absent _ _ _ E), in_app_iff. simpl.
    intros [H|[H|[]]]; [right; exact H|]. injection H as <- <-. left. split; reflexivity.
Qed.

Lemma assign_same_value (k : string) (v : value) (o : object) :
  NoDup (keys o) -> lookup k o = Some v -> assign k v o = o.
Proof.
  intros Hnd E. rewrite (assign_present _ _ _ _ E).
  rewrite <- (map_id o) at 2. apply map_ext_in. intros [k1 v1] Hin.
  unfold replace_at; simpl. destruct (String.eqb_spec k1 k) as [->|]; [|reflexivity].
  apply (lookup_unique _ _ _ Hnd) in Hin. congruence.
Qed.

(** ** Properties defined in turn on an object *)

Lemma lookup_define_all (g : value -> value) (k : string) (l acc : object) :
  lookup k (define_all g l acc)
  = match lookup k l with Some v => Some (g v) | None => lookup k acc end.
Proof.
  revert acc. induction l as [|[k1 v1] l IH]; intros acc; simpl; [reflexivity|].
  fold (define_all g l (assign k1 (g v1) acc)). rewrite IH, lookup_assign.
  destruct (lookup k l); [reflexivity|]. destruct (k1 =? k); reflexivity.
Qed.

Lemma NoDup_define_all (g : value -> value) (l acc : object) :
  NoDup (keys acc) -> NoDup (keys (define_all g l acc)).
Proof.
  revert acc. induction l as [|[k1 v1] l IH]; intros acc Hnd; simpl; [exact Hnd|].
  apply IH, NoDup_assign, Hnd.
Qed.

Lemma In_define_all (g : value -> value) (k : string) (v : value) (l acc : object) :
  In (k, v) (define_all g l acc) ->
  In (k, v) acc \/ exists v0, In (k, v0) l /\ v = g v0.
Proof.
  revert acc. induction l as [|[k1 v1] l IH]; intros acc; simpl; [tauto|].
  intros H. apply IH in H. destruct H as [H|[v0 [H1 H2]]].
  - apply In_assign in H. destruct H as [[-> ->]|H]; [|left; exact H].
    right. exists v1. split; [left|]; reflexivity.
  - right. exists v0. split; [right|]; assumption.
Qed.

Lemma define_all_fresh (g : value -> value) (l acc : object) :
  NoDup (keys (acc ++ l)%list) ->
  (forall k v, In (k, v) l -> g v = v) ->
  define_all g l acc = (acc ++ l)%list.
Proof.
  revert acc. induction l as [|[k1 v1] l IH]; intros acc Hnd Hfix; simpl.
  - rewrite app_nil_r. reflexivity.
  - fold (define_all g l (assign k1 (g v1) acc)).
    rewrite (Hfix k1 v1) by (left; reflexivity).
    assert (Hfresh : lookup k1 acc = None).
    { apply lookup_None. intros Hin. unfold keys in Hnd. rewrite map_app in Hnd.
      simpl in Hnd. apply NoDup_remove_2 in Hnd. apply Hnd.
      apply in_or_app. left. exact Hin. }
    rewrite (assign_absent _ _ _ Hfresh).
    rewrite IH.
    + rewrite <- app_assoc. reflexivity.
    + rewrite <- app_assoc. exact Hnd.
    + intros k v Hin. apply (Hfix k v). right. exact Hin.
Qed.

Lemma In_settable (k : string) (v : value) (l : object) :
  In (k, v) (settable l) <-> In (k, v) l /\ k <> "__proto__".
Proof.
  unfold settable. rewrite filter_In. simpl.
  destruct (String.eqb_spec k "__proto__"); simpl; intuition congruence.
Qed.

Lemma settable_fixed (l : object) :
  ~ In "__proto__" (keys l) -> settable l = l.
Proof.
  unfold settable, keys. induction l as [|[k v] l IH]; simpl; [reflexivity|].
  intros H. destruct (String.eqb_spec k "__proto__") as [->|_]; simpl.
  - exfalso. apply H. left. reflexivity.
  - rewrite IH; [reflexivity|]. intros Hin. apply H. right. exact Hin.
Qed.

Lemma keys_settable (l : object) : ~ In "__proto__" (keys (settable l)).
Proof.
  unfold keys. rewrite in_map_iff. intros [[k v] [Hk Hin]]. simpl in Hk. subst k.
  apply In_settable in Hin. destruct Hin as [_ H]. apply H. reflexivity.
Qed.

Lemma NoDup_settable (l : object) : NoDup (keys l) -> NoDup (keys (settable l)).
Proof.
  unfold settable, keys. induction l as [|[k v] l IH]; simpl; [auto|].
  intros H. inversion H as [|? ? Hnot Hnd]; subst.
  destruct (negb (k =? "__proto__")); simpl; [|apply IH, Hnd].
  constructor; [|apply IH, Hnd].
  intros Hin. apply Hnot. rewrite in_map_iff in *.
  destruct Hin as [x [Hx Hin]]. exists x. split; [exact Hx|].
  apply filter_In in Hin. apply Hin.
Qed.

Lemma lookup_settable (k : string) (l : object) :
  k <> "__proto__" -> lookup k (settable l) = lookup k l.
Proof.
  intros Hk. unfold settable. induction l as [|[k1 v1] l IH]; [reflexivity|].
  cbn [filter fst]. destruct (String.eqb_spec k1 "__proto__") as [->|_]; cbn [negb].
  - cbn [lookup]. rewrite IH. destruct (lookup k l); [reflexivity|].
    destruct (String.eqb_spec "__proto__" k); [congruence|reflexivity].
  - cbn [lookup]. rewrite IH. reflexivity.
Qed.

Lemma keys_define_all (g : value -> value) (k : string) (l acc : object) :
  In k (keys (define_all g l acc)) -> In k (keys acc) \/ In k (keys l).
Proof.
  unfold keys. rewrite !in_map_iff. intros [[k' v] [Hk Hin]]. simpl in Hk. subst k'.
  apply In_define_all in Hin. destruct Hin as [Hin|[v0 [Hin _]]].
  - left. exists (k, v). split; [reflexivity|exact Hin].
  - right. exists (k, v0). split; [reflexivity|exact Hin].
Qed.

Lemma spread_define_all (v : value) :
  spread v = define_all (fun x => x) (entries v) [].
Proof. reflexivity. Qed.

Lemma lookup_spread (k : string) (v : value) :
  lookup k (spread v) = lookup k (entries v).
Proof.
  rewrite spread_define_all, lookup_define_all.
  destruct (lookup k (entries v)); reflexivity.
Qed.

Lemma NoDup_spread (v : value) : NoDup (keys (spread v)).
Proof. rewrite spread_define_all. apply NoDup_define_all. constructor. Qed.

Lemma In_spread (k : string) (x v : value) :
  In (k, x) (spread v) -> In (k, x) (entries v).
Proof.
  rewrite spread_define_all. intros H. apply In_define_all in H.
  destruct H as [[]|[v0 [H ->]]]. exact H.
Qed.

Lemma spread_plain_object (o : object) :
  NoDup (keys o) -> spread (VObj o) = o.
Proof.
  intros Hnd. rewrite spread_define_all. simpl.
  apply (define_all_fresh (fun x => x) o []); [exact Hnd|reflexivity].
Qed.

(** ** Depth of the values an object or an array holds *)

Lemma In_indexed {A : Type} (k : string) (x : A) (i : nat) (l : list A) :
  In (k, x) (indexed i l) -> In x l.
Proof.
  revert i. induction l as [|y l IH]; intros i; simpl; [tauto|].
  intros [H|H]; [injection H as _ ->; left; reflexivity|right; eapply IH, H].
Qed.

Lemma depth_element (x : value) (l : list value) :
  In x l -> depth x < depth (VArr l).
Proof.
  simpl. induction l as [|y l IH]; simpl; [tauto|].
  intros [->|H]; [lia|]. apply IH in H. lia.
Qed.

Lemma depth_property (k : string) (x : value) (o : object) :
  In (k, x) o -> depth x < depth (VObj o).
Proof.
  simpl. induction o as [|[k1 y] o IH]; simpl; [tauto|].
  intros [H|H]; [injection H as _ ->; lia|]. apply IH in H. lia.
Qed.

Lemma depth_entries (k : string) (x v : value) :
  typeof v = "object" -> In (k, x) (entries v) -> depth x < depth v.
Proof.
  destruct v; simpl; try discriminate; try tauto; intros _ H.
  - apply depth_element. eapply In_indexed, H.
  - eapply depth_property, H.
Qed.

(** ** The normaliser: enough fuel, and its equation *)

Lemma validateAndCleanSchema_body_steps (f : value -> option value) (s : value) :
  validateAndCleanSchema_body f s
  = if is_object s then
      let cs := with_properties (with_type (spread s)) in
      let p := prop cs "properties" in
      obind (if is_object p
             then obind (cleanSchemaProperties f p)
                        (fun cp => Some (assign "properties" (VObj cp) cs))
             else Some cs)
            (fun cs' => Some (VObj (with_items cs')))
    else Some default_schema.
Proof.
  unfold validateAndCleanSchema_body, is_object.
  destruct (truthy s); simpl; [|reflexivity].
  destruct (typeof s =? "object"); reflexivity.
Qed.

Lemma cleanSchemaProperties_ext (f1 f2 : value -> option value) (p : value) :
  (forall k v, In (k, v) (entries p) -> typeof v = "object" -> f1 v = f2 v) ->
  cleanSchemaProperties f1 p = cleanSchemaProperties f2 p.
Proof.
  unfold cleanSchemaProperties. generalize (Some (@nil (string * value))).
  induction (entries p) as [|[k1 v1] l IH]; intros acc H; simpl; [reflexivity|].
  rewrite IH by (intros k v Hin; apply (H k v); right; exact Hin).
  f_equal. destruct acc as [acc|]; simpl; [|reflexivity].
  destruct (String.eqb_spec (typeof v1) "object") as [Ht|]; [|reflexivity].
  rewrite (H k1 v1) by (try left; auto). reflexivity.
Qed.

Lemma cleanSchemaProperties_total (g : value -> value) (p : value) :
  cleanSchemaProperties (fun v => Some (g v)) p
  = Some (define_all (fun v => if typeof v =? "object" then g v else v)
                     (settable (entries p)) []).
Proof.
  unfold cleanSchemaProperties, define_all, settable.
  generalize (@nil (string * value)).
  induction (entries p) as [|[k1 v1] l IH]; intros acc; simpl; [reflexivity|].
  unfold set_property.
  destruct (k1 =? "__proto__"); destruct (typeof v1 =? "object") eqn:Et; simpl;
    rewrite ?Et; apply IH.
Qed.

Lemma prop_with_type_other (k : string) (cs : object) :
  k <> "type" -> prop (with_type cs) k = prop cs k.
Proof.
  intros Hk. unfold with_type. destruct (negb (truthy (prop cs "type"))); [|reflexivity].
  rewrite prop_assign. destruct (String.eqb_spec "type" k); [congruence|reflexivity].
Qed.

(** The [properties] the recursive step walks: the fresh empty object, or
    the value the input binds. *)
Lemma properties_source (s : value) :
  let p := prop (with_properties (with_type (spread s))) "properties" in
  p = VObj [] \/ (lookup "properties" (entries s) = Some p /\ truthy p = true).
Proof.
  simpl. unfold with_properties.
  rewrite (prop_with_type_other "properties") by discriminate.
  destruct (truthy (prop (spread s) "properties")) eqn:Ht; simpl.
  - right. rewrite (prop_with_type_other "properties") by discriminate.
    split; [|exact Ht]. unfold prop in *. rewrite lookup_spread in *.
    destruct (lookup "properties" (entries s)); [reflexivity|discriminate].
  - left. rewrite prop_assign. reflexivity.
Qed.

Lemma is_object_typeof (v : value) : is_object v = true -> typeof v = "object".
Proof.
  unfold is_object. intros H. apply andb_prop in H. destruct H as [_ H].
  apply String.eqb_eq. exact H.
Qed.

Lemma depth_walked (s : value) (k : string) (v : value) :
  is_object s = true ->
  let p := prop (with_properties (with_type (spread s))) "properties" in
  is_object p = true -> In (k, v) (entries p) -> S (depth v) < depth s.
Proof.
  intros Hs p Hp Hin. destruct (properties_source s) as [E|[E _]]; fold p in E.
  - rewrite E in Hin. destruct Hin.
  - apply lookup_In in E.
    apply (depth_entries _ _ _ (is_object_typeof _ Hs)) in E.
    apply (depth_entries _ _ _ (is_object_typeof _ Hp)) in Hin. lia.
Qed.

Lemma validateAndCleanSchema_body_ext (f1 f2 : value -> option value) (s : value) :
  (forall v, S (depth v) < depth s -> f1 v = f2 v) ->
  validateAndCleanSchema_body f1 s = validateAndCleanSchema_body f2 s.
Proof.
  intros H. rewrite !validateAndCleanSchema_body_steps.
  destruct (is_object s) eqn:Hs; [|reflexivity]. cbv zeta.
  destruct (is_object (prop (with_properties (with_type (spread s))) "properties"))
    eqn:Hp; [|reflexivity].
  rewrite (cleanSchemaProperties_ext f1 f2); [reflexivity|].
  intros k v Hin _. apply H. eapply depth_walked; eassumption.
Qed.

Lemma validateAndCleanSchema_fuel_stable (n m : nat) (s : value) :
  depth s < n -> depth s < m ->
  validateAndCleanSchema_fuel n s = validateAndCleanSchema_fuel m s.
Proof.
  revert m s. induction n as [|n IH]; intros m s Hn Hm; [lia|].
  destruct m as [|m]; [lia|]. simpl.
  apply validateAndCleanSchema_body_ext. intros v Hv. apply IH; lia.
Qed.

Lemma validateAndCleanSchema_fuel_some (n : nat) (s : value) :
  depth s < n -> exists r, validateAndCleanSchema_fuel n s = Some r.
Proof.
  revert s. induction n as [|n IH]; intros s Hn; [lia|]. simpl.
  set (g := fun v => match validateAndCleanSchema_fuel n v with
                     | Some r => r | None => VUndefined end).
  rewrite (validateAndCleanSchema_body_ext _ (fun v => Some (g v))).
  - rewrite validateAndCleanSchema_body_steps.
    destruct (is_object s); [|eauto]. cbv zeta.
    destruct (is_object _); [|simpl; eauto].
    rewrite cleanSchemaProperties_total. simpl. eauto.
  - intros v Hv. unfold g. destruct (IH v) as [r ->]; [lia|reflexivity].
Qed.

(** The recursion ends on every value: fuel above the depth of the input
    gives the result of [validateAndCleanSchema]. *)
Lemma validateAndCleanSchema_fuel_enough (n : nat) (s : value) :
  depth s < n ->
  validateAndCleanSchema_fuel n s = Some (validateAndCleanSchema s).
Proof.
  intros Hn. unfold validateAndCleanSchema.
  rewrite (validateAndCleanSchema_fuel_stable n (S (depth s))) by lia.
  destruct (validateAndCleanSchema_fuel_some (S (depth s)) s) as [r ->]; [lia|].
  reflexivity.
Qed.

(** The equation of the source: the result in terms of the results of the
    recursive calls. *)
Lemma validateAndCleanSchema_equation (s : value) :
  validateAndCleanSchema s
  = if is_object s then
      let cs := with_properties (with_type (spread s)) in
      let p := prop cs "properties" in
      VObj (with_items
              (if is_object p
               then assign "properties"
                           (VObj (define_all clean_value (settable (entries p)) [])) cs
               else cs))
    else default_schema.
Proof.
  assert (H : validateAndCleanSchema_body (fun v => Some (validateAndCleanSchema v)) s
              = Some (validateAndCleanSchema s)).
  { rewrite <- (validateAndCleanSchema_fuel_enough (S (depth s)) s) by lia. simpl.
    apply validateAndCleanSchema_body_ext. intros v Hv. symmetry.
    apply validateAndCleanSchema_fuel_enough. lia. }
  rewrite validateAndCleanSchema_body_steps in H.
  destruct (is_object s); [|injection H as <-; reflexivity]. cbv zeta in *.
  destruct (is_object _).
  - rewrite cleanSchemaProperties_total in H. simpl in H. injection H as <-.
    reflexivity.
  - simpl in H. injection H as <-. reflexivity.
Qed.

(** ** Shape of a normalised schema *)

Lemma prop_with_properties_other (k : string) (cs : object) :
  k <> "properties" -> prop (with_properties cs) k = prop cs k.
Proof.
  intros Hk. unfold with_properties.
  destruct (negb (truthy (prop cs "properties"))); [|reflexivity].
  rewrite prop_assign. destruct (String.eqb_spec "properties" k); [congruence|reflexivity].
Qed.

Lemma prop_with_items_other (k : string) (cs : object) :
  k <> "items" -> prop (with_items cs) k = prop cs k.
Proof.
  intros Hk. unfold with_items. destruct (_ && _); [|reflexivity].
  rewrite prop_assign. destruct (String.eqb_spec "items" k); [congruence|reflexivity].
Qed.

Lemma truthy_with_type (cs : object) : truthy (prop (with_type cs) "type") = true.
Proof.
  unfold with_type. destruct (truthy (prop cs "type")) eqn:E; simpl; [exact E|].
  rewrite prop_assign. reflexivity.
Qed.

Lemma truthy_with_properties (cs : object) :
  truthy (prop (with_properties cs) "properties") = true.
Proof.
  unfold with_properties. destruct (truthy (prop cs "properties")) eqn:E; simpl; [exact E|].
  rewrite prop_assign. reflexivity.
Qed.

Lemma truthy_with_items (cs : object) :
  strict_eq_string (prop cs "type") "array" = true ->
  truthy (prop (with_items cs) "items") = true.
Proof.
  intros Ht. unfold with_items. rewrite Ht. simpl.
  destruct (truthy (prop cs "items")) eqn:E; simpl; [exact E|].
  rewrite prop_assign. reflexivity.
Qed.

Lemma NoDup_with_type (cs : object) : NoDup (keys cs) -> NoDup (keys (with_type cs)).
Proof. unfold with_type. destruct (negb _); auto using NoDup_assign. Qed.

Lemma NoDup_with_properties (cs : object) :
  NoDup (keys cs) -> NoDup (keys (with_properties cs)).
Proof. unfold with_properties. destruct (negb _); auto using NoDup_assign. Qed.

Lemma NoDup_with_items (cs : object) : NoDup (keys cs) -> NoDup (keys (with_items cs)).
Proof. unfold with_items. destruct (_ && _); auto using NoDup_assign. Qed.

Lemma truthy_not_object (p : value) :
  truthy p = true -> is_object p = false -> typeof p <> "object".
Proof.
  unfold is_object. intros -> H Ht. rewrite Ht in H. discriminate.
Qed.

(** The result is always a plain object with distinct keys, a truthy [type]
    and a truthy [properties]; an array type comes with truthy [items]; and
    [properties] is either the cleaned copy of the entries [l] that the
    input binds, or a value that is not an object. *)
Lemma validateAndCleanSchema_shape (s : value) :
  exists out l,
    validateAndCleanSchema s = VObj out
    /\ NoDup (keys out)
    /\ truthy (prop out "type") = true
    /\ truthy (prop out "properties") = true
    /\ (strict_eq_string (prop out "type") "array" = true ->
        truthy (prop out "items") = true)
    /\ (prop out "properties" = VObj (define_all clean_value l [])
        \/ typeof (prop out "properties") <> "object")
    /\ (forall k v, In (k, v) l ->
                     S (depth v) < depth s /\ k <> "__proto__").
Proof.
  rewrite validateAndCleanSchema_equation.
  destruct (is_object s) eqn:Hs.
  - cbv zeta. set (cs := with_properties (with_type (spread s))).
    assert (Hnd : NoDup (keys cs))
      by apply NoDup_with_properties, NoDup_with_type, NoDup_spread.
    assert (Hty : truthy (prop cs "type") = true).
    { unfold cs. rewrite prop_with_properties_other by discriminate.
      apply truthy_with_type. }
    assert (Hpr : truthy (prop cs "properties") = true)
      by apply truthy_with_properties.
    destruct (is_object (prop cs "properties")) eqn:Hp.
    + set (q := define_all clean_value
                  (settable (entries (prop cs "properties"))) []).
      set (cs' := assign "properties" (VObj q) cs).
      assert (Hty' : prop cs' "type" = prop cs "type").
      { unfold cs'. rewrite prop_assign. reflexivity. }
      exists (with_items cs'), (settable (entries (prop cs "properties"))).
      split; [reflexivity|]. split; [apply NoDup_with_items, NoDup_assign, Hnd|].
      rewrite !(prop_with_items_other "type") by discriminate.
      rewrite !(prop_with_items_other "properties") by discriminate.
      assert (Hpr' : prop cs' "properties" = VObj q).
      { unfold cs'. rewrite prop_assign. reflexivity. }
      rewrite Hpr'.
      split; [rewrite Hty'; exact Hty|]. split; [reflexivity|].
      split; [apply truthy_with_items|].
      split; [left; reflexivity|].
      intros k v Hin. apply In_settable in Hin. destruct Hin as [Hin Hk].
      split; [eapply depth_walked; eassumption|exact Hk].
    + exists (with_items cs), [].
      split; [reflexivity|]. split; [apply NoDup_with_items, Hnd|].
      rewrite !(prop_with_items_other "type") by discriminate.
      rewrite !(prop_with_items_other "properties") by discriminate.
      split; [exact Hty|]. split; [exact Hpr|].
      split; [apply truthy_with_items|].
      split; [right; apply truthy_not_object; assumption|].
      intros k v [].
  - exists [("type", VStr "object"); ("properties", VObj [])], [].
    split; [reflexivity|]. split.
    { repeat constructor; simpl; intuition discriminate. }
    split; [reflexivity|]. split; [reflexivity|]. split; [discriminate|].
    split; [left; reflexivity|]. intros k v [].
Qed.

Lemma validateAndCleanSchema_is_object (s : value) :
  is_object (validateAndCleanSchema s) = true.
Proof.
  destruct (validateAndCleanSchema_shape s) as [out [l [-> _]]]. reflexivity.
Qed.

(** ** The normaliser on inputs that are not objects *)

(** C3.  For an input that is [undefined], [null] or not an object, the
    normaliser returns exactly [{ type: "object", properties: {} }]. *)
Theorem non_object_schema_gives_default (schema : value) :
  schema = VUndefined \/ schema = VNull \/ typeof schema <> "object" ->
  validateAndCleanSchema schema = default_schema.
Proof.
  intros H. rewrite validateAndCleanSchema_equation.
  assert (E : is_object schema = false).
  { destruct H as [->|[->|H]]; [reflexivity|reflexivity|].
    unfold is_object. destruct (String.eqb_spec (typeof schema) "object");
      [contradiction|apply andb_false_r]. }
  rewrite E. reflexivity.
Qed.

Lemma non_object_schema_gives_default_witness :
  (VNum 7 = VUndefined \/ VNum 7 = VNull \/ typeof (VNum 7) <> "object")
  /\ validateAndCleanSchema (VNum 7) = default_schema.
Proof.
  assert (H : VNum 7 = VUndefined \/ VNum 7 = VNull \/ typeof (VNum 7) <> "object")
    by (right; right; simpl; discriminate).
  split; [exact H|]. apply (non_object_schema_gives_default (VNum 7) H).
Defined.

(** ** The recursive step *)

Lemma prop_Some (o : object) (k : string) (v : value) :
  prop o k = v -> v <> VUndefined -> lookup k o = Some v.
Proof.
  unfold prop. destruct (lookup k o); intros <- H; [reflexivity|contradiction].
Qed.

(** An input whose [properties] is the mapping [po] gets as [properties]
    the entries of [po] defined in turn, each through [clean_value]. *)
Lemma properties_of_normalised (o po : object) :
  prop o "properties" = VObj po ->
  exists out,
    validateAndCleanSchema (VObj o) = VObj out
    /\ prop out "properties" = VObj (define_all clean_value (settable po) []).
Proof.
  intros Hpo. rewrite validateAndCleanSchema_equation.
  change (is_object (VObj o)) with true. cbv iota zeta.
  assert (E : prop (with_properties (with_type (spread (VObj o)))) "properties"
              = VObj po).
  { unfold with_properties. rewrite !(prop_with_type_other "properties") by discriminate.
    assert (E0 : prop (spread (VObj o)) "properties" = VObj po).
    { unfold prop. rewrite lookup_spread. exact Hpo. }
    rewrite E0. simpl. rewrite (prop_with_type_other "properties") by discriminate.
    exact E0. }
  rewrite E. change (is_object (VObj po)) with true. cbv iota.
  eexists. split; [reflexivity|].
  rewrite (prop_with_items_other "properties") by discriminate.
  rewrite prop_assign. reflexivity.
Qed.

Lemma lookup_cleaned (po : object) (k : string) :
  k <> "__proto__" ->
  lookup k (define_all clean_value (settable po) [])
  = match lookup k po with Some v => Some (clean_value v) | None => None end.
Proof.
  intros Hk. rewrite lookup_define_all, (lookup_settable k po Hk). reflexivity.
Qed.

Lemma lookup_proto_cleaned (po : object) :
  lookup "__proto__" (define_all clean_value (settable po) []) = None.
Proof.
  apply lookup_None. intros H. apply keys_define_all in H.
  destruct H as [[]|H]. exact (keys_settable po H).
Qed.

(** C4, as stated, fails: a property value that is not an object is stored
    as it is, not normalised. *)
Lemma string_property_not_normalised :
  ~ every_property_normalised
      [("properties", VObj [("a", VStr "x")])] [("a", VStr "x")].
Proof.
  intros [out [q [Hout [Hq H]]]].
  specialize (H "a" (VStr "x") eq_refl).
  vm_compute in Hout. injection Hout as <-.
  vm_compute in Hq. injection Hq as <-.
  vm_compute in H. discriminate.
Qed.

(** C4, amended.  When the input's [properties] is a mapping, the output's
    [properties] is a mapping that binds every key other than [__proto__]
    exactly when the input binds it: a value whose [typeof] is ["object"]
    (an object, an array or [null]) is replaced by its normalisation, every
    other value is kept as it is. *)
Theorem properties_cleaned_by_type (o po : object) :
  prop o "properties" = VObj po ->
  exists out q,
    validateAndCleanSchema (VObj o) = VObj out
    /\ prop out "properties" = VObj q
    /\ forall k,
         k <> "__proto__" ->
         lookup k q
         = match lookup k po with
           | Some v => Some (if typeof v =? "object"
                             then validateAndCleanSchema v else v)
           | None => None
           end.
Proof.
  intros Hpo. destruct (properties_of_normalised o po Hpo) as [out [Hout Hq]].
  exists out, (define_all clean_value (settable po) []).
  split; [exact Hout|]. split; [exact Hq|].
  intros k Hk. apply lookup_cleaned. exact Hk.
Qed.

Lemma properties_cleaned_by_type_witness :
  prop [("properties", VObj [("a", VStr "x"); ("b", VNull)])] "properties"
  = VObj [("a", VStr "x"); ("b", VNull)]
  /\ exists out q,
       validateAndCleanSchema
         (VObj [("properties", VObj [("a", VStr "x"); ("b", VNull)])]) = VObj out
       /\ prop out "properties" = VObj q
       /\ forall k,
            k <> "__proto__" ->
            lookup k q
            = match lookup k [("a", VStr "x"); ("b", VNull)] with
              | Some v => Some (if typeof v =? "object"
                                then validateAndCleanSchema v else v)
              | None => None
              end.
Proof.
  split; [reflexivity|].
  apply (properties_cleaned_by_type
           [("properties", VObj [("a", VStr "x"); ("b", VNull)])]
           [("a", VStr "x"); ("b", VNull)]).
  reflexivity.
Defined.

(** X29.  A key other than [__proto__] that the input's [properties]
    mapping binds to [null] is bound to [{ type: "object", properties: {} }]
    in the output. *)
Theorem null_property_becomes_default (o po : object) (k : string) :
  prop o "properties" = VObj po ->
  lookup k po = Some VNull ->
  k <> "__proto__" ->
  exists out q,
    validateAndCleanSchema (VObj o) = VObj out
    /\ prop out "properties" = VObj q
    /\ lookup k q = Some default_schema.
Proof.
  intros Hpo Hk Hne. destruct (properties_of_normalised o po Hpo) as [out [Hout Hq]].
  exists out, (define_all clean_value (settable po) []).
  split; [exact Hout|]. split; [exact Hq|].
  rewrite (lookup_cleaned po k Hne), Hk. reflexivity.
Qed.

Lemma null_property_becomes_default_witness :
  prop [("properties", VObj [("a", VNull)])] "properties" = VObj [("a", VNull)]
  /\ lookup "a" [("a", VNull)] = Some VNull
  /\ "a" <> "__proto__"
  /\ exists out q,
       validateAndCleanSchema (VObj [("properties", VObj [("a", VNull)])])
       = VObj out
       /\ prop out "properties" = VObj q
       /\ lookup "a" q = Some default_schema.
Proof.
  assert (H : "a" <> "__proto__") by discriminate.
  split; [reflexivity|]. split; [reflexivity|]. split; [exact H|].
  apply (null_property_becomes_default
           [("properties", VObj [("a", VNull)])] [("a", VNull)] "a"
           eq_refl eq_refl H).
Defined.

(** C10.  On [{ properties: { "__proto__": null, a: null } }] the
    normaliser binds [a] to the default schema and leaves [__proto__] out of
    the output's [properties]: the assignment [cleanProperties[key] = ...]
    under that name runs the prototype setter.  No input gets an own
    [__proto__] in the output's [properties]. *)
Theorem proto_null_property_dropped :
  validateAndCleanSchema
    (VObj [("properties", VObj [("__proto__", VNull); ("a", VNull)])])
  = VObj [("properties", VObj [("a", default_schema)]); ("type", VStr "object")]
  /\ forall o po,
       prop o "properties" = VObj po ->
       exists out q,
         validateAndCleanSchema (VObj o) = VObj out
         /\ prop out "properties" = VObj q
         /\ lookup "__proto__" q = None.
Proof.
  split; [reflexivity|].
  intros o po Hpo. destruct (properties_of_normalised o po Hpo) as [out [Hout Hq]].
  exists out, (define_all clean_value (settable po) []).
  split; [exact Hout|]. split; [exact Hq|]. apply lookup_proto_cleaned.
Qed.

(** ** Idempotence *)

Lemma clean_value_fixed (v : value) :
  validateAndCleanSchema (validateAndCleanSchema v) = validateAndCleanSchema v ->
  clean_value (clean_value v) = clean_value v.
Proof.
  intros IH. unfold clean_value at 2 3.
  destruct (typeof v =? "object") eqn:Ht.
  - unfold clean_value.
    rewrite (is_object_typeof _ (validateAndCleanSchema_is_object v)). exact IH.
  - unfold clean_value. rewrite Ht. reflexivity.
Qed.

Lemma idempotent_below_depth (n : nat) :
  forall s, depth s < n ->
  validateAndCleanSchema (validateAndCleanSchema s) = validateAndCleanSchema s.
Proof.
  induction n as [|n IH]; intros s Hn; [lia|].
  destruct (validateAndCleanSchema_shape s)
    as [out [l [E [Hnd [Hty [Hpr [Hit [Hq Hl]]]]]]]].
  rewrite E, validateAndCleanSchema_equation.
  change (is_object (VObj out)) with true. cbv iota zeta.
  rewrite (spread_plain_object out Hnd).
  assert (E1 : with_type out = out) by (unfold with_type; rewrite Hty; reflexivity).
  assert (E2 : with_properties out = out)
    by (unfold with_properties; rewrite Hpr; reflexivity).
  rewrite E1, E2.
  assert (E3 : (if is_object (prop out "properties")
                then assign "properties"
                       (VObj (define_all clean_value
                                (settable (entries (prop out "properties")))
                                [])) out
                else out) = out).
  { destruct Hq as [Hq|Hq].
    - rewrite Hq. change (is_object (VObj ?q)) with true. cbv iota.
      change (entries (VObj ?q)) with q.
      set (q := define_all clean_value l []) in *.
      assert (Hset : settable q = q).
      { apply settable_fixed. intros H. apply keys_define_all in H.
        destruct H as [[]|H]. unfold keys in H. rewrite in_map_iff in H.
        destruct H as [[k v] [Hk Hin]]. simpl in Hk. subst k.
        apply Hl in Hin. destruct Hin as [_ Hne]. apply Hne. reflexivity. }
      rewrite Hset.
      assert (Hfix : define_all clean_value q [] = q).
      { apply (define_all_fresh clean_value q []).
        - apply NoDup_define_all. constructor.
        - intros k v Hin. apply In_define_all in Hin.
          destruct Hin as [[]|[v0 [Hin ->]]].
          apply clean_value_fixed, IH. apply Hl in Hin. lia. }
      rewrite Hfix. apply assign_same_value; [exact Hnd|].
      apply prop_Some; [exact Hq|discriminate].
    - destruct (is_object (prop out "properties")) eqn:Ho; [|reflexivity].
      apply is_object_typeof in Ho. contradiction. }
  rewrite E3. f_equal. unfold with_items.
  destruct (strict_eq_string (prop out "type") "array") eqn:Ha; [|reflexivity].
  rewrite (Hit eq_refl). reflexivity.
Qed.

(** C6.  The normaliser is idempotent: normalising its output again gives
    the same structure. *)
Theorem validateAndCleanSchema_idempotent (s : value) :
  validateAndCleanSchema (validateAndCleanSchema s) = validateAndCleanSchema s.
Proof. apply (idempotent_below_depth (S (depth s))). lia. Qed.

(** ** Field by field: what the normaliser writes *)

Lemma prop_spread_object (o : object) (k : string) :
  prop (spread (VObj o)) k = prop o k.
Proof. unfold prop. rewrite lookup_spread. reflexivity. Qed.

Lemma normalised_fields (s : value) :
  is_object s = true ->
  exists out,
    validateAndCleanSchema s = VObj out
    /\ (forall k, k <> "type" -> k <> "properties" -> k <> "items" ->
                  prop out k = prop (spread s) k)
    /\ prop out "type"
       = (if truthy (prop (spread s) "type")
          then prop (spread s) "type" else VStr "object")
    /\ prop out "properties"
       = (if truthy (prop (spread s) "properties")
          then if typeof (prop (spread s) "properties") =? "object"
               then VObj (define_all clean_value
                            (settable (entries (prop (spread s) "properties")))
                            [])
               else prop (spread s) "properties"
          else VObj [])
    /\ prop out "items"
       = (if strict_eq_string (prop out "type") "array"
             && negb (truthy (prop (spread s) "items"))
          then string_schema else prop (spread s) "items").
Proof.
  intros Hs. rewrite validateAndCleanSchema_equation, Hs. cbv zeta.
  set (cs0 := spread s). set (cs2 := with_properties (with_type cs0)).
  set (p := prop cs2 "properties").
  set (cs3 := if is_object p
              then assign "properties"
                     (VObj (define_all clean_value (settable (entries p)) [])) cs2
              else cs2).
  assert (H2 : forall k, k <> "type" -> k <> "properties" -> prop cs2 k = prop cs0 k).
  { intros k H1 H2. unfold cs2.
    rewrite prop_with_properties_other, prop_with_type_other by assumption.
    reflexivity. }
  assert (H3 : forall k, k <> "properties" -> prop cs3 k = prop cs2 k).
  { intros k Hk. unfold cs3. destruct (is_object p); [|reflexivity].
    rewrite prop_assign. destruct (String.eqb_spec "properties" k); congruence. }
  assert (Hty : prop cs3 "type"
                = if truthy (prop cs0 "type") then prop cs0 "type" else VStr "object").
  { rewrite H3 by discriminate. unfold cs2.
    rewrite prop_with_properties_other by discriminate. unfold with_type.
    destruct (truthy (prop cs0 "type")); simpl; [reflexivity|].
    rewrite prop_assign. reflexivity. }
  assert (Hp : p = if truthy (prop cs0 "properties")
                   then prop cs0 "properties" else VObj []).
  { unfold p, cs2, with_properties.
    rewrite !(prop_with_type_other "properties") by discriminate.
    destruct (truthy (prop cs0 "properties")); simpl.
    - apply prop_with_type_other. discriminate.
    - rewrite prop_assign. reflexivity. }
  exists (with_items cs3). split; [reflexivity|].
  split.
  { intros k H1 Hpk Hi. rewrite prop_with_items_other by assumption.
    rewrite H3 by assumption. apply H2; assumption. }
  split.
  { rewrite prop_with_items_other by discriminate. exact Hty. }
  split.
  { rewrite prop_with_items_other by discriminate. unfold cs3.
    destruct (truthy (prop cs0 "properties")) eqn:Et.
    - rewrite Hp. unfold is_object. rewrite Et. simpl.
      destruct (typeof (prop cs0 "properties") =? "object").
      + rewrite prop_assign. reflexivity.
      + fold p. exact Hp.
    - rewrite Hp. change (is_object (VObj [])) with true. cbv iota.
      rewrite prop_assign. reflexivity. }
  rewrite (prop_with_items_other "type") by discriminate.
  assert (Hit : prop cs3 "items" = prop cs0 "items").
  { rewrite H3 by discriminate. apply H2; discriminate. }
  unfold with_items. rewrite Hit.
  destruct (strict_eq_string (prop cs3 "type") "array"
            && negb (truthy (prop cs0 "items"))).
  - rewrite prop_assign. reflexivity.
  - exact Hit.
Qed.

(** ** The invariant of normalised schemas *)

Lemma node_ok_normalised (s : value) : node_ok (validateAndCleanSchema s) = true.
Proof.
  destruct (validateAndCleanSchema_shape s)
    as [out [l [E [Hnd [Hty [Hpr [Hit [Hq Hl]]]]]]]].
  rewrite E. simpl. rewrite Hty, Hpr. simpl.
  assert (H1 : (if typeof (prop out "properties") =? "object"
                then is_plain_object (prop out "properties") else true) = true).
  { destruct Hq as [->|Hq]; [reflexivity|].
    destruct (String.eqb_spec (typeof (prop out "properties")) "object");
      [contradiction|reflexivity]. }
  rewrite H1. simpl.
  destruct (strict_eq_string (prop out "type") "array") eqn:Ha; [|reflexivity].
  apply Hit. reflexivity.
Qed.

Lemma node_of_primitive (n v : value) :
  typeof v <> "object" -> node_of n v -> n = v.
Proof.
  intros Ht H. destruct H as [|o q k c _ _ _]; [reflexivity|].
  exfalso. apply Ht. reflexivity.
Qed.

Lemma nodes_of_normalised (n v : value) :
  node_of n v ->
  forall s, v = validateAndCleanSchema s -> typeof n = "object" ->
  node_ok n = true.
Proof.
  induction 1 as [|o q k c Hq Hin Hsub IH]; intros s E Ht.
  - rewrite E. apply node_ok_normalised.
  - destruct (validateAndCleanSchema_shape s)
      as [out [l [E' [_ [_ [_ [_ [Hq' _]]]]]]]].
    rewrite E' in E. injection E as ->.
    destruct Hq' as [Hq'|Hq']; [|rewrite Hq in Hq'; exfalso; apply Hq'; reflexivity].
    rewrite Hq in Hq'. injection Hq' as ->.
    apply In_define_all in Hin. destruct Hin as [[]|[v0 [_ ->]]].
    unfold clean_value in *.
    destruct (String.eqb_spec (typeof v0) "object") as [Hv|Hv].
    + apply (IH v0 eq_refl Ht).
    + apply (node_of_primitive _ _ Hv) in Hsub. congruence.
Qed.

(** C5, as stated, fails: a truthy [properties] that is not an object is
    kept, so the root of the output is object-typed without a [properties]
    mapping. *)
Lemma string_properties_break_invariant :
  ~ (forall n,
       node_of n (validateAndCleanSchema (VObj [("properties", VStr "x")])) ->
       schema_invariant n = true).
Proof.
  intros H. specialize (H _ (node_root _)). vm_compute in H. discriminate.
Qed.

Lemma node_from_normalised (i : value) : node_from i (validateAndCleanSchema i).
Proof.
  unfold node_from. destruct (is_object i) eqn:Hi.
  - destruct (normalised_fields i Hi) as [out [E [_ [Hty [Hp Hit]]]]].
    exists out. split; [exact E|]. simpl andb. split; [exact Hty|].
    split; [|split].
    + rewrite Hp. destruct (truthy (prop (spread i) "properties")); simpl;
        [|reflexivity].
      destruct (typeof (prop (spread i) "properties") =? "object"); reflexivity.
    + intros Ha. rewrite Hit, Ha. simpl.
      destruct (truthy (prop (spread i) "items")) eqn:Et; [exact Et|reflexivity].
    + intros _ Et. rewrite Hit, Et, andb_false_r. reflexivity.
  - rewrite validateAndCleanSchema_equation, Hi.
    exists [("type", VStr "object"); ("properties", VObj [])].
    split; [reflexivity|]. split; [reflexivity|]. split; [reflexivity|].
    split; discriminate.
Qed.

(** The property values of a normalised object come from the entries of the
    input's [properties]. *)
Lemma normalised_children (i : value) (out q : object) (k : string) (c : value) :
  validateAndCleanSchema i = VObj out ->
  prop out "properties" = VObj q ->
  In (k, c) q ->
  exists v0,
    is_object i = true
    /\ is_object (prop (spread i) "properties") = true
    /\ In (k, v0) (entries (prop (spread i) "properties"))
    /\ c = clean_value v0.
Proof.
  intros E Hq Hin. destruct (is_object i) eqn:Hi.
  - destruct (normalised_fields i Hi) as [out' [E' [_ [_ [Hp _]]]]].
    rewrite E in E'. injection E' as <-. rewrite Hq in Hp.
    destruct (truthy (prop (spread i) "properties")) eqn:Et.
    + destruct (String.eqb_spec (typeof (prop (spread i) "properties")) "object")
        as [Ho|Ho].
      * injection Hp as ->. apply In_define_all in Hin.
        destruct Hin as [[]|[v0 [Hv0 ->]]]. apply In_settable in Hv0.
        exists v0. split; [reflexivity|]. split.
        { unfold is_object. rewrite Et, Ho. reflexivity. }
        split; [apply Hv0|reflexivity].
      * exfalso. apply Ho. rewrite <- Hp. reflexivity.
    + injection Hp as ->. destruct Hin.
  - rewrite validateAndCleanSchema_equation, Hi in E. injection E as <-.
    simpl in Hq. injection Hq as <-. destruct Hin.
Qed.

Lemma nodes_traced (s n v : value) :
  node_of n v ->
  forall i, input_node s i -> v = validateAndCleanSchema i ->
  (typeof n = "object" ->
   exists i', input_node s i' /\ n = validateAndCleanSchema i')
  /\ (typeof n <> "object" ->
      exists i' k,
        input_node s i' /\ is_object i' = true
        /\ In (k, n) (entries (prop (spread i') "properties"))).
Proof.
  induction 1 as [|o q k c Hq Hin Hsub IH]; intros i Hi E.
  - split.
    + intros _. exists i. split; [exact Hi|exact E].
    + intros Hn. exfalso. apply Hn. rewrite E.
      apply is_object_typeof, validateAndCleanSchema_is_object.
  - symmetry in E.
    destruct (normalised_children i o q k c E Hq Hin)
      as [v0 [Hio [Hpo [Hv0 ->]]]].
    unfold clean_value in *.
    destruct (String.eqb_spec (typeof v0) "object") as [Hv|Hv].
    + apply (IH v0); [|reflexivity].
      apply (input_property s i k v0); assumption.
    + apply (node_of_primitive _ _ Hv) in Hsub. subst n. split.
      * intros Ht. contradiction.
      * intros _. exists i, k. repeat split; assumption.
Qed.

(** C5, amended.  In the output of the normaliser, the root and every
    property value reached through [properties] mappings that is an object
    is the normalisation of a node of the input (the input itself, or an
    object-typed property value of a visited object), and stands to it as
    [node_from] says: a truthy [type], the input's or ["object"]; a
    [properties] that is a mapping unless the input node binds a truthy
    value that is not an object, which is then kept; truthy [items] when
    the type is ["array"], the input's when it has truthy ones.  Every
    reached property value that is not an object is a property value of
    the input, as it was.  The root's [type] is ["object"] when the input
    is not an object or has no truthy [type]. *)
Theorem normalised_nodes_ok (s : value) :
  (forall n, node_of n (validateAndCleanSchema s) -> typeof n = "object" ->
             node_ok n = true
             /\ exists i, input_node s i
                          /\ n = validateAndCleanSchema i
                          /\ node_from i n)
  /\ (forall n, node_of n (validateAndCleanSchema s) -> typeof n <> "object" ->
                exists i k,
                  input_node s i /\ is_object i = true
                  /\ In (k, n) (entries (prop (spread i) "properties")))
  /\ (is_object s && truthy (prop (spread s) "type") = false ->
      exists out, validateAndCleanSchema s = VObj out
                  /\ prop out "type" = VStr "object").
Proof.
  split; [|split].
  - intros n Hn Ht. split; [apply (nodes_of_normalised n _ Hn s eq_refl Ht)|].
    destruct (proj1 (nodes_traced s n _ Hn s (input_root s) eq_refl) Ht)
      as [i [Hi ->]].
    exists i. split; [exact Hi|]. split; [reflexivity|].
    apply node_from_normalised.
  - intros n Hn Ht.
    apply (proj2 (nodes_traced s n _ Hn s (input_root s) eq_refl) Ht).
  - intros H. rewrite validateAndCleanSchema_equation.
    destruct (is_object s); [|eexists; split; reflexivity].
    simpl in H. cbv zeta. eexists. split; [reflexivity|].
    rewrite (prop_with_items_other "type") by discriminate.
    assert (E : prop (with_properties (with_type (spread s))) "type" = VStr "object").
    { rewrite prop_with_properties_other by discriminate.
      unfold with_type. rewrite H. simpl. rewrite prop_assign. reflexivity. }
    destruct (is_object _); [|exact E].
    rewrite prop_assign. exact E.
Qed.

Lemma normalised_nodes_ok_witness :
  node_of (VObj [("type", VStr "array"); ("properties", VObj []);
                 ("items", string_schema)])
          (validateAndCleanSchema
             (VObj [("properties", VObj [("a", VObj [("type", VStr "array")]);
                                         ("b", VStr "x")])]))
  /\ node_ok (VObj [("type", VStr "array"); ("properties", VObj []);
                    ("items", string_schema)]) = true
  /\ (exists i,
        input_node
          (VObj [("properties", VObj [("a", VObj [("type", VStr "array")]);
                                      ("b", VStr "x")])]) i
        /\ VObj [("type", VStr "array"); ("properties", VObj []);
                 ("items", string_schema)] = validateAndCleanSchema i
        /\ node_from i (VObj [("type", VStr "array"); ("properties", VObj []);
                              ("items", string_schema)]))
  /\ node_of (VStr "x")
             (validateAndCleanSchema
                (VObj [("properties", VObj [("a", VObj [("type", VStr "array")]);
                                            ("b", VStr "x")])]))
  /\ exists i k,
       input_node
         (VObj [("properties", VObj [("a", VObj [("type", VStr "array")]);
                                     ("b", VStr "x")])]) i
       /\ is_object i = true
       /\ In (k, VStr "x") (entries (prop (spread i) "properties")).
Proof.
  assert (Ha : node_of (VObj [("type", VStr "array"); ("properties", VObj []);
                              ("items", string_schema)])
                 (validateAndCleanSchema
                    (VObj [("properties",
                            VObj [("a", VObj [("type", VStr "array")]);
                                  ("b", VStr "x")])]))).
  { apply (node_property _ _
             [("a", VObj [("type", VStr "array"); ("properties", VObj []);
                          ("items", string_schema)]);
              ("b", VStr "x")] "a"
             (VObj [("type", VStr "array"); ("properties", VObj []);
                    ("items", string_schema)])).
    - reflexivity.
    - left. reflexivity.
    - apply node_root. }
  assert (Hb : node_of (VStr "x")
                 (validateAndCleanSchema
                    (VObj [("properties",
                            VObj [("a", VObj [("type", VStr "array")]);
                                  ("b", VStr "x")])]))).
  { apply (node_property _ _
             [("a", VObj [("type", VStr "array"); ("properties", VObj []);
                          ("items", string_schema)]);
              ("b", VStr "x")] "b" (VStr "x")).
    - reflexivity.
    - right. left. reflexivity.
    - apply node_root. }
  assert (Hx : typeof (VStr "x") <> "object") by discriminate.
  split; [exact Ha|].
  split; [apply (proj1 (proj1 (normalised_nodes_ok _) _ Ha eq_refl))|].
  split; [apply (proj2 (proj1 (normalised_nodes_ok _) _ Ha eq_refl))|].
  split; [exact Hb|].
  apply (proj1 (proj2 (normalised_nodes_ok _)) _ Hb Hx).
Defined.

(** ** Tool formatter *)

Lemma formatTool_descriptor (o : object) (n : string) :
  prop o "name" = VStr n ->
  formatTool (VObj o)
  = Ok (VObj [("type", VStr "function");
              ("function",
               VObj [("name", VStr n);
                     ("description",
                      if truthy (prop o "description")
                      then prop o "description"
                      else VStr ("Execute " ++ n));
                     ("parameters",
                      validateAndCleanSchema (prop o "inputSchema"))])]).
Proof.
  intros Hn. unfold formatTool. simpl. rewrite Hn.
  assert (Ht : truthy (validateAndCleanSchema (prop o "inputSchema")) = true).
  { pose proof (validateAndCleanSchema_is_object (prop o "inputSchema")) as H.
    unfold is_object in H. apply andb_prop in H. apply H. }
  rewrite Ht. destruct (truthy (prop o "description")); reflexivity.
Qed.

Lemma mapM_length {A B : Type} (f : A -> result B) (l : list A) (out : list B) :
  mapM f l = Ok out -> List.length out = List.length l.
Proof.
  revert out. induction l as [|x l IH]; simpl; intros out.
  - intros H. injection H as <-. reflexivity.
  - destruct (f x) as [y|]; simpl; [|discriminate].
    destruct (mapM f l) as [ys|]; simpl; [|discriminate].
    intros H. injection H as <-. simpl. f_equal. apply IH. reflexivity.
Qed.

Lemma mapM_nth {A B : Type} (f : A -> result B) (l : list A) (out : list B) :
  mapM f l = Ok out ->
  forall i x, nth_error l i = Some x ->
  exists y, f x = Ok y /\ nth_error out i = Some y.
Proof.
  revert out. induction l as [|x0 l IH]; simpl; intros out H i x Hi.
  - destruct i; discriminate.
  - destruct (f x0) as [y0|] eqn:E0; simpl in H; [|discriminate].
    destruct (mapM f l) as [ys|]; simpl in H; [|discriminate].
    injection H as <-. destruct i as [|i]; simpl in *.
    + injection Hi as <-. exists y0. split; [exact E0|reflexivity].
    + apply (IH ys eq_refl i x Hi).
Qed.

Lemma mapM_total {A B : Type} (f : A -> result B) (l : list A) :
  Forall (fun x => exists y, f x = Ok y) l -> exists out, mapM f l = Ok out.
Proof.
  induction 1 as [|x l [y Hy] _ [ys Hys]]; simpl.
  - exists []. reflexivity.
  - rewrite Hy, Hys. simpl. eexists. reflexivity.
Qed.

(** C7.  An input that is not an array ([undefined] included) gives the
    empty sequence; a list of tool descriptors gives a sequence of the same
    length and order, whose entries are
    [{ type: "function", function: { name, description, parameters } }],
    the description being ["Execute " + name] when the descriptor has none
    and the parameters the normalised [inputSchema]. *)
Theorem formatToolsForLLM_spec :
  (forall tools, isArray tools = false -> formatToolsForLLM tools = Ok [])
  /\ (forall descriptors,
        Forall ToolDescriptor descriptors ->
        exists out,
          formatToolsForLLM (VArr descriptors) = Ok out
          /\ List.length out = List.length descriptors
          /\ forall i o, nth_error descriptors i = Some (VObj o) ->
               exists n,
                 prop o "name" = VStr n
                 /\ nth_error out i
                    = Some (VObj
                        [("type", VStr "function");
                         ("function",
                          VObj [("name", VStr n);
                                ("description",
                                 if truthy (prop o "description")
                                 then prop o "description"
                                 else VStr ("Execute " ++ n));
                                ("parameters",
                                 validateAndCleanSchema
                                   (prop o "inputSchema"))])])).
Proof.
  split.
  - intros tools H. unfold formatToolsForLLM. rewrite H.
    rewrite orb_true_r. reflexivity.
  - intros ds Hds.
    assert (Hall : Forall (fun t => exists y, formatTool t = Ok y) ds).
    { eapply Forall_impl; [|exact Hds]. intros t [o [n [-> Hn]]].
      eexists. apply (formatTool_descriptor o n Hn). }
    destruct (mapM_total _ _ Hall) as [out Hout].
    exists out. split; [exact Hout|]. split; [apply (mapM_length _ _ _ Hout)|].
    intros i o Hi.
    destruct (mapM_nth _ _ _ Hout i _ Hi) as [y [Hy Hnth]].
    rewrite Forall_forall in Hds.
    destruct (Hds _ (nth_error_In _ _ Hi)) as [o' [n [Ho Hn]]].
    injection Ho as <-. exists n. split; [exact Hn|].
    rewrite (formatTool_descriptor o n Hn) in Hy. injection Hy as <-. exact Hnth.
Qed.

Lemma formatToolsForLLM_spec_witness :
  Forall ToolDescriptor [VObj [("name", VStr "find_rfa")]]
  /\ exists out,
       formatToolsForLLM (VArr [VObj [("name", VStr "find_rfa")]]) = Ok out
       /\ List.length out = 1.
Proof.
  assert (H : Forall ToolDescriptor [VObj [("name", VStr "find_rfa")]]).
  { repeat constructor. exists [("name", VStr "find_rfa")], "find_rfa".
    split; reflexivity. }
  split; [exact H|].
  destruct (proj2 formatToolsForLLM_spec _ H) as [out [Hout [Hlen _]]].
  exists out. split; [exact Hout|exact Hlen].
Defined.

(** ** Request composer *)

Lemma index_key_inj (i j : nat) : index_key i = index_key j -> i = j.
Proof.
  unfold index_key. intros H. apply DecimalNat.Unsigned.to_uint_inj.
  assert (E : Some (Nat.to_uint i) = Some (Nat.to_uint j)).
  { rewrite <- !NilEmpty.usu. rewrite H. reflexivity. }
  injection E as E. exact E.
Qed.

Lemma keys_indexed {A : Type} (k : string) (i : nat) (l : list A) :
  In k (map fst (indexed i l)) -> exists j, i <= j /\ k = index_key j.
Proof.
  revert i. induction l as [|x l IH]; intros i; simpl; [tauto|].
  intros [<-|H]; [exists i; split; [lia|reflexivity]|].
  destruct (IH _ H) as [j [Hj ->]]. exists j. split; [lia|reflexivity].
Qed.




(** ** The outbound request *)
Lemma requestBody_members (model final : value) (ft : list value) (stream : value) :
  exists ms,
    JSON_stringify (requestBody model final ft stream) = Some (JObj ms)
    /\ member "max_completion_tokens" ms = Some (JNum 4000)
    /\ (ft = [] -> member "tools" ms = None /\ member "tool_choice" ms = None)
    /\ (ft <> [] ->
        member "tools" ms = JSON_stringify (VArr ft)
        /\ member "tool_choice" ms = Some (JStr "auto")).
Proof.
  unfold requestBody. cbn [JSON_stringify].
  destruct (JSON_stringify model), (JSON_stringify final),
    (JSON_stringify stream), ft as [|x ft];
    cbn [List.length Nat.ltb Nat.leb JSON_stringify];
    eexists; (split; [reflexivity|]); cbn [member String.eqb Ascii.eqb Bool.eqb andb];
    repeat split; try reflexivity; try congruence.
Qed.

Lemma complete_calls (P : string) (sp : string -> bool) (e : env)
    (messages tools model stream isp : value) (t : list net_call) :
  fst (complete P sp e messages tools model stream isp t) = t
  \/ exists key final ft,
       OPENAI_API_KEY e = Some key
       /\ finalMessages P sp isp messages = Ok final
       /\ formatted_tools tools = Ok ft
       /\ fst (complete P sp e messages tools model stream isp t)
          = (t ++ [ChatCompletions ("Bearer " ++ key)
                     (JSON_stringify (requestBody model final ft stream))])%list.
Proof.
  unfold complete, formatted_tools.
  destruct (OPENAI_API_KEY e) as [[|c key]|]; [left; reflexivity| |left; reflexivity].
  unfold abind, lift.
  destruct (finalMessages P sp isp messages) as [final|]; [|left; reflexivity].
  destruct (if truthy tools then formatToolsForLLM tools else Ok []) as [ft|];
    [|left; reflexivity].
  right. exists (String c key), final, ft. repeat (split; [reflexivity|]).
  unfold fetch, response_json, lift, respond.
  destruct (llm_api e _ _) as [r|]; [|reflexivity].
  destruct (upstream_ok r); simpl; [destruct (truthy stream); simpl|];
    destruct (upstream_json r); reflexivity.
Qed.

Lemma fst_run (body : action Empty_set) : fst (run body) = fst (body []).
Proof. unfold run. destruct (body []) as [t [[]|r|e]]; reflexivity. Qed.

Lemma abind_lift {A B : Type} (r : result A) (k : A -> action B) (t : list net_call) :
  abind (lift r) k t = match r with Ok a => k a t | Throw e => (t, Raise e) end.
Proof. unfold abind, lift. destruct r; reflexivity. Qed.

(** The calls of the handler of [src/index.js]: none, or the one call to
    the LLM with the composed body. *)
Lemma handler_index_calls (P : string) (sp : string -> bool) (e : env) (req : request) :
  fst (handler_index P sp e req) = []
  \/ exists key messages tools model stream isp final ft,
       get (req_body req) "messages" = Ok messages
       /\ get (req_body req) "tools" = Ok tools
       /\ field (req_body req) "model" (VStr "gpt-5") = Ok model
       /\ field (req_body req) "stream" (VBool false) = Ok stream
       /\ field (req_body req) "includeSystemPrompt" (VBool true) = Ok isp
       /\ OPENAI_API_KEY e = Some key
       /\ finalMessages P sp isp messages = Ok final
       /\ formatted_tools tools = Ok ft
       /\ fst (handler_index P sp e req)
          = [ChatCompletions ("Bearer " ++ key)
               (JSON_stringify (requestBody model final ft stream))].
Proof.
  unfold handler_index. rewrite fst_run, !abind_lift.
  destruct (get (req_body req) "messages") as [messages|]; [|left; reflexivity].
  rewrite abind_lift.
  destruct (get (req_body req) "tools") as [tools|]; [|left; reflexivity].
  rewrite abind_lift.
  destruct (field (req_body req) "model" (VStr "gpt-5")) as [model|];
    [|left; reflexivity].
  rewrite abind_lift.
  destruct (field (req_body req) "stream" (VBool false)) as [stream|];
    [|left; reflexivity].
  rewrite abind_lift.
  destruct (field (req_body req) "includeSystemPrompt" (VBool true)) as [isp|];
    [|left; reflexivity].
  destruct (complete_calls P sp e messages tools model stream isp [])
    as [H|[key [final [ft [Hk [Hf [Ht H]]]]]]]; [left; exact H|].
  right. exists key, messages, tools, model, stream, isp, final, ft.
  repeat (split; [reflexivity || assumption|]). exact H.
Qed.

(** ** The authorization gate *)

Lemma get_defined (v : value) (k : string) :
  v <> VUndefined -> v <> VNull -> exists x, get v k = Ok x.
Proof.
  destruct v; simpl; try congruence; intros _ _; eauto;
    destruct (k =? "length"); eauto.
Qed.

Lemma field_defined (v : value) (k : string) (d : value) :
  v <> VUndefined -> v <> VNull -> exists x, field v k d = Ok x.
Proof.
  intros H1 H2. unfold field. destruct (get_defined v k H1 H2) as [x ->].
  simpl. eauto.
Qed.

(** How the gate ends: it lets the handler continue only after the auth
    service answered with a success status and a body whose [isValid] and
    [isFreeTrial] are both truthy, and it calls no other service. *)
Lemma auth_gate_outcome (e : env) (req : request) (t : list net_call) :
  match auth_gate e req t with
  | (t', Continue _) =>
      exists h r d iv ift,
        req_authorization req = Some h
        /\ t' = (t ++ [AuthValidate
                        (JSON_stringify (VObj [("token", VStr (strip_bearer h))]))])%list
        /\ auth_service e (JSON_stringify (VObj [("token", VStr (strip_bearer h))]))
           = Some r
        /\ upstream_ok r = true
        /\ upstream_json r = Some d
        /\ get d "isValid" = Ok iv /\ truthy iv = true
        /\ get d "isFreeTrial" = Ok ift /\ truthy ift = true
  | (t', _) => t' = t \/ exists b, t' = (t ++ [AuthValidate b])%list
  end.
Proof.
  unfold auth_gate.
  destruct (req_authorization req) as [[|c h]|]; [left; reflexivity| |left; reflexivity].
  unfold try_catch, abind, fetch, response_json, lift, respond, ret.
  set (body := JSON_stringify (VObj [("token", VStr (strip_bearer (String c h)))])).
  destruct (auth_service e body) as [r|] eqn:Ea; [|right; eexists; reflexivity].
  destruct (upstream_ok r) eqn:Eok; simpl; [|right; eexists; reflexivity].
  destruct (upstream_json r) as [d|] eqn:Ej; [|right; eexists; reflexivity].
  destruct (get d "isValid") as [iv|] eqn:Eiv; [|right; eexists; reflexivity].
  destruct (truthy iv) eqn:Etv; simpl; [|right; eexists; reflexivity].
  destruct (get d "isFreeTrial") as [ift|] eqn:Eift; [|right; eexists; reflexivity].
  destruct (truthy ift) eqn:Etf; simpl; [|right; eexists; reflexivity].
  exists (String c h), r, d, iv, ift. repeat (split; [reflexivity || assumption|]).
  assumption.
Qed.

(** X23.  Without an [Authorization] header the gated handler answers 401
    and calls no service. *)
Lemma gated_missing_authorization
    (P : string) (sp : string -> bool) (e : env) (req : request) :
  req_authorization req = None ->
  req_body req <> VUndefined -> req_body req <> VNull ->
  handler_gated P sp e req
  = ([], ReplyJson 401 (error_body "No authorization token provided")).
Proof.
  intros Ha H1 H2. unfold handler_gated.
  destruct (get_defined _ "messages" H1 H2) as [m Em].
  destruct (get_defined _ "tools" H1 H2) as [tl Et].
  destruct (field_defined _ "model" (VStr "gpt-5") H1 H2) as [md Emd].
  destruct (field_defined _ "stream" (VBool false) H1 H2) as [st Est].
  destruct (field_defined _ "includeSystemPrompt" (VBool true) H1 H2) as [isp Ei].
  unfold run. rewrite abind_lift, Em, abind_lift, Et, abind_lift, Emd,
    abind_lift, Est, abind_lift, Ei.
  unfold abind, auth_gate. rewrite Ha. reflexivity.
Qed.

(** X24.  The decisions of the gate on an answer of the auth service:
    after the one call to it, a falsy [isValid] gives 401 "Invalid token",
    a truthy [isValid] with a falsy [isFreeTrial] gives 403. *)
Lemma gated_auth_decision
    (P : string) (sp : string -> bool) (e : env) (req : request)
    (h : string) (r : upstream) (d : object) :
  req_authorization req = Some h -> h <> "" ->
  req_body req <> VUndefined -> req_body req <> VNull ->
  auth_service e (JSON_stringify (VObj [("token", VStr (strip_bearer h))])) = Some r ->
  upstream_ok r = true ->
  upstream_json r = Some (VObj d) ->
  (truthy (prop d "isValid") = false ->
   handler_gated P sp e req
   = ([AuthValidate (JSON_stringify (VObj [("token", VStr (strip_bearer h))]))],
      ReplyJson 401 (error_body "Invalid token")))
  /\ (truthy (prop d "isValid") = true ->
      truthy (prop d "isFreeTrial") = false ->
      handler_gated P sp e req
      = ([AuthValidate (JSON_stringify (VObj [("token", VStr (strip_bearer h))]))],
         ReplyJson 403 (error_body
           "Subscription required (Free trial expired or not active)"))).
Proof.
  intros Ha Hh H1 H2 Eauth Eok Ej.
  destruct (get_defined _ "messages" H1 H2) as [m Em].
  destruct (get_defined _ "tools" H1 H2) as [tl Et].
  destruct (field_defined _ "model" (VStr "gpt-5") H1 H2) as [md Emd].
  destruct (field_defined _ "stream" (VBool false) H1 H2) as [st Est].
  destruct (field_defined _ "includeSystemPrompt" (VBool true) H1 H2) as [isp Ei].
  assert (Hgate : forall t,
    auth_gate e req t
    = if truthy (prop d "isValid") then
        if truthy (prop d "isFreeTrial") then
          ((t ++ [AuthValidate (JSON_stringify (VObj [("token", VStr (strip_bearer h))]))])%list,
           Continue tt)
        else
          ((t ++ [AuthValidate (JSON_stringify (VObj [("token", VStr (strip_bearer h))]))])%list,
           Return (ReplyJson 403 (error_body
             "Subscription required (Free trial expired or not active)")))
      else
        ((t ++ [AuthValidate (JSON_stringify (VObj [("token", VStr (strip_bearer h))]))])%list,
         Return (ReplyJson 401 (error_body "Invalid token")))).
  { intros t. unfold auth_gate. rewrite Ha.
    destruct h as [|c h']; [congruence|].
    unfold try_catch, abind, fetch, response_json, lift, respond, ret.
    rewrite Eauth, Eok, Ej. simpl.
    destruct (truthy (prop d "isValid")); simpl; [|reflexivity].
    destruct (truthy (prop d "isFreeTrial")); reflexivity. }
  assert (Hrun : handler_gated P sp e req
                 = run (abind (auth_gate e req)
                          (fun _ => complete P sp e m tl md st isp))).
  { unfold handler_gated, run.
    rewrite abind_lift, Em, abind_lift, Et, abind_lift, Emd,
      abind_lift, Est, abind_lift, Ei. reflexivity. }
  rewrite Hrun. unfold run, abind. rewrite Hgate.
  split.
  - intros Hv. rewrite Hv. reflexivity.
  - intros Hv Hf. rewrite Hv, Hf. reflexivity.
Qed.

(** The calls of the gated handler to the LLM: each comes after an answer
    of the auth service with truthy [isValid] and [isFreeTrial]. *)
Lemma handler_gated_calls
    (P : string) (sp : string -> bool) (e : env) (req : request)
    (a : string) (b : option json) :
  In (ChatCompletions a b) (fst (handler_gated P sp e req)) ->
  (exists h r d iv ift,
     req_authorization req = Some h
     /\ auth_service e (JSON_stringify (VObj [("token", VStr (strip_bearer h))]))
        = Some r
     /\ upstream_ok r = true
     /\ upstream_json r = Some d
     /\ get d "isValid" = Ok iv /\ truthy iv = true
     /\ get d "isFreeTrial" = Ok ift /\ truthy ift = true)
  /\ exists tools model stream final ft,
       get (req_body req) "tools" = Ok tools
       /\ formatted_tools tools = Ok ft
       /\ b = JSON_stringify (requestBody model final ft stream).
Proof.
  unfold handler_gated. rewrite fst_run, !abind_lift.
  destruct (get (req_body req) "messages") as [messages|]; [|intros []].
  rewrite abind_lift.
  destruct (get (req_body req) "tools") as [tools|]; [|intros []].
  rewrite abind_lift.
  destruct (field (req_body req) "model" (VStr "gpt-5")) as [model|]; [|intros []].
  rewrite abind_lift.
  destruct (field (req_body req) "stream" (VBool false)) as [stream|]; [|intros []].
  rewrite abind_lift.
  destruct (field (req_body req) "includeSystemPrompt" (VBool true)) as [isp|];
    [|intros []].
  unfold abind. pose proof (auth_gate_outcome e req []) as Hg.
  destruct (auth_gate e req []) as [t' [u|r|ex]].
  - destruct Hg as [h [r [d [iv [ift [Ha [-> Hrest]]]]]]]. cbn [app].
    destruct (complete_calls P sp e messages tools model stream isp
                [AuthValidate (JSON_stringify (VObj [("token", VStr (strip_bearer h))]))])
      as [H|[key [final [ft [Hk [Hf [Ht H]]]]]]]; rewrite H.
    + intros [Hin|[]]. discriminate.
    + intros [Hin|[Hin|[]]]; [discriminate|]. injection Hin as <- <-.
      split; [exists h, r, d, iv, ift; split; [exact Ha|exact Hrest]|].
      exists tools, model, stream, final, ft. repeat split; assumption.
  - simpl. destruct Hg as [->|[b' ->]]; [intros []|intros [Hin|[]]; discriminate].
  - simpl. destruct Hg as [->|[b' ->]]; [intros []|intros [Hin|[]]; discriminate].
Qed.

(** The handler of [src/index.js] never calls the auth service and does not
    read the [Authorization] header. *)
Lemma handler_index_never_validates
    (P : string) (sp : string -> bool) (e : env) (req : request) (b : option json) :
  ~ In (AuthValidate b) (fst (handler_index P sp e req)).
Proof.
  destruct (handler_index_calls P sp e req)
    as [->|[key [m [tl [md [st [isp [final [ft [_ [_ [_ [_ [_ [_ [_ [_ ->]]]]]]]]]]]]]]]]].
  - intros [].
  - intros [H|[]]. discriminate.
Qed.

Lemma handler_index_ignores_authorization
    (P : string) (sp : string -> bool) (e : env) (a1 a2 : option string) (b : value) :
  handler_index P sp e {| req_authorization := a1; req_body := b |}
  = handler_index P sp e {| req_authorization := a2; req_body := b |}.
Proof. reflexivity. Qed.

(** C1.  On a request without [Authorization] header the handler of
    [src/index.js] calls the LLM and answers 200, where the specification
    asks for 401 and no call; the gated copy of the handler answers 401 and
    makes no call. *)
Theorem index_serves_anonymous_request (P : string) (sp : string -> bool) :
  handler_index P sp rejecting_env anonymous_request
  = ([ChatCompletions "Bearer sk-test" (hello_outbound P)],
     ReplyJson 200 (VObj [("id", VStr "chatcmpl-1")]))
  /\ handler_gated P sp rejecting_env anonymous_request
     = ([], ReplyJson 401 (error_body "No authorization token provided")).
Proof. split; reflexivity. Qed.

(** C2.  On a request whose token the auth service answers is not valid,
    the handler of [src/index.js] calls the LLM and answers 200 without
    asking the auth service; the gated copy asks it and answers 401. *)
Theorem index_serves_rejected_token (P : string) (sp : string -> bool) :
  handler_index P sp rejecting_env rejected_request
  = ([ChatCompletions "Bearer sk-test" (hello_outbound P)],
     ReplyJson 200 (VObj [("id", VStr "chatcmpl-1")]))
  /\ handler_gated P sp rejecting_env rejected_request
     = ([AuthValidate (Some (JObj [("token", JStr "expired")]))],
        ReplyJson 401 (error_body "Invalid token")).
Proof. split; reflexivity. Qed.

(** C9.  Every request either copy of the handler sends to the LLM has
    [max_completion_tokens] 4000; it has [tools], the formatted tools, and
    [tool_choice] ["auto"] when the formatted sequence is not empty, and
    neither field when it is empty. *)
Theorem outbound_body_fields
    (P : string) (sp : string -> bool) (e : env) (req : request)
    (authorization : string) (body : option json) :
  In (ChatCompletions authorization body) (fst (handler_index P sp e req))
  \/ In (ChatCompletions authorization body) (fst (handler_gated P sp e req)) ->
  exists tools ft ms,
    get (req_body req) "tools" = Ok tools
    /\ formatted_tools tools = Ok ft
    /\ body = Some (JObj ms)
    /\ member "max_completion_tokens" ms = Some (JNum 4000)
    /\ (ft = [] -> member "tools" ms = None /\ member "tool_choice" ms = None)
    /\ (ft <> [] ->
        member "tools" ms = JSON_stringify (VArr ft)
        /\ member "tool_choice" ms = Some (JStr "auto")).
Proof.
  intros H.
  assert (Hb : exists tools model stream final ft,
             get (req_body req) "tools" = Ok tools
             /\ formatted_tools tools = Ok ft
             /\ body = JSON_stringify (requestBody model final ft stream)).
  { destruct H as [H|H].
    - destruct (handler_index_calls P sp e req)
        as [E|[key [m [tl [md [st [isp [final [ft
              [_ [Et [_ [_ [_ [_ [_ [Hft E]]]]]]]]]]]]]]]]];
        rewrite E in H; [destruct H|].
      destruct H as [H|[]]. injection H as _ <-.
      exists tl, md, st, final, ft. repeat split; assumption.
    - apply handler_gated_calls in H. apply H. }
  destruct Hb as [tools [model [stream [final [ft [Ht [Hft ->]]]]]]].
  destruct (requestBody_members model final ft stream) as [ms [Hms Hrest]].
  exists tools, ft, ms. split; [exact Ht|]. split; [exact Hft|].
  split; [exact Hms|exact Hrest].
Qed.

Lemma outbound_body_fields_witness :
  In (ChatCompletions "Bearer sk-test" (hello_outbound "prompt"))
     (fst (handler_index "prompt" (fun _ => false) rejecting_env anonymous_request))
  /\ exists ms,
       hello_outbound "prompt" = Some (JObj ms)
       /\ member "max_completion_tokens" ms = Some (JNum 4000).
Proof.
  assert (H : In (ChatCompletions "Bearer sk-test" (hello_outbound "prompt"))
                (fst (handler_index "prompt" (fun _ => false)
                        rejecting_env anonymous_request)))
    by (left; reflexivity).
  split; [exact H|].
  destruct (outbound_body_fields "prompt" (fun _ => false) rejecting_env
              anonymous_request _ _ (or_introl H))
    as [tools [ft [ms [_ [_ [Hms [Hmax _]]]]]]].
  exists ms. split; [exact Hms|exact Hmax].
Defined.

(** ** Fields of a normalised schema object *)

(** X1.  An array-typed schema object keeps truthy [items] as they are (they
    are not normalised) and gets [{ type: "string" }] otherwise. *)
Theorem array_schema_items (o : object) :
  prop o "type" = VStr "array" ->
  exists out,
    validateAndCleanSchema (VObj o) = VObj out
    /\ prop out "type" = VStr "array"
    /\ prop out "items"
       = (if truthy (prop o "items") then prop o "items" else string_schema).
Proof.
  intros Ht. destruct (normalised_fields (VObj o) eq_refl)
    as [out [E [_ [Hty [_ Hit]]]]].
  rewrite !prop_spread_object in *. rewrite Ht in Hty. simpl in Hty.
  exists out. split; [exact E|]. split; [exact Hty|].
  rewrite Hit, Hty. simpl. destruct (truthy (prop o "items")); reflexivity.
Qed.

Lemma array_schema_items_witness :
  prop [("type", VStr "array"); ("items", VObj [])] "type" = VStr "array"
  /\ exists out,
       validateAndCleanSchema (VObj [("type", VStr "array"); ("items", VObj [])])
       = VObj out
       /\ prop out "items" = VObj [].
Proof.
  split; [reflexivity|].
  destruct (array_schema_items [("type", VStr "array"); ("items", VObj [])] eq_refl)
    as [out [E [_ Hit]]].
  exists out. split; [exact E|exact Hit].
Defined.

(** X2.  The copy is shallow: on a schema object every field other than
    [type], [properties] and [items] comes out as it went in, a truthy
    [type] comes out as it went in, and so does [items] unless the type is
    ["array"] and [items] is falsy. *)
Theorem other_fields_pass_through (o : object) :
  exists out,
    validateAndCleanSchema (VObj o) = VObj out
    /\ (forall k, k <> "type" -> k <> "properties" -> k <> "items" ->
                  prop out k = prop o k)
    /\ (truthy (prop o "type") = true -> prop out "type" = prop o "type")
    /\ (strict_eq_string (prop o "type") "array" = false
        \/ truthy (prop o "items") = true ->
        prop out "items" = prop o "items").
Proof.
  destruct (normalised_fields (VObj o) eq_refl) as [out [E [Hk [Hty [_ Hit]]]]].
  rewrite !prop_spread_object in *. exists out. split; [exact E|].
  split; [intros k H1 H2 H3; rewrite Hk by assumption; apply prop_spread_object|].
  split; [intros H; rewrite Hty, H; reflexivity|].
  intros H. rewrite Hit. destruct H as [H|H].
  - assert (Hn : strict_eq_string (prop out "type") "array" = false).
    { rewrite Hty. destruct (truthy (prop o "type")); [exact H|reflexivity]. }
    rewrite Hn. reflexivity.
  - rewrite H, andb_false_r. reflexivity.
Qed.

Lemma other_fields_pass_through_witness :
  exists out,
    validateAndCleanSchema
      (VObj [("type", VStr "string"); ("enum", VArr [VStr "a"; VNull])])
    = VObj out
    /\ prop out "enum" = VArr [VStr "a"; VNull]
    /\ prop out "type" = VStr "string".
Proof.
  destruct (other_fields_pass_through
              [("type", VStr "string"); ("enum", VArr [VStr "a"; VNull])])
    as [out [E [Hk [Hty _]]]].
  exists out. split; [exact E|]. split.
  - apply (Hk "enum"); discriminate.
  - apply Hty. reflexivity.
Defined.

(** X3.  A truthy [properties] that is not an object (a string, a number,
    [true]) is left as it is. *)
Theorem non_object_properties_kept (o : object) :
  truthy (prop o "properties") = true ->
  typeof (prop o "properties") <> "object" ->
  exists out,
    validateAndCleanSchema (VObj o) = VObj out
    /\ prop out "properties" = prop o "properties".
Proof.
  intros Ht Hn. destruct (normalised_fields (VObj o) eq_refl)
    as [out [E [_ [_ [Hp _]]]]].
  rewrite !prop_spread_object in *. exists out. split; [exact E|].
  rewrite Hp, Ht.
  destruct (String.eqb_spec (typeof (prop o "properties")) "object");
    [contradiction|reflexivity].
Qed.

Lemma non_object_properties_kept_witness :
  truthy (prop [("properties", VNum 3)] "properties") = true
  /\ typeof (prop [("properties", VNum 3)] "properties") <> "object"
  /\ exists out,
       validateAndCleanSchema (VObj [("properties", VNum 3)]) = VObj out
       /\ prop out "properties" = VNum 3.
Proof.
  assert (H : typeof (prop [("properties", VNum 3)] "properties") <> "object")
    by (simpl; discriminate).
  split; [reflexivity|]. split; [exact H|].
  apply (non_object_properties_kept [("properties", VNum 3)] eq_refl H).
Defined.

(** ** Keys and their order *)

Lemma keys_assign (k : string) (v : value) (o : object) :
  keys (assign k v o)
  = match lookup k o with Some _ => keys o | None => (keys o ++ [k])%list end.
Proof.
  destruct (lookup k o) as [x|] eqn:E.
  - rewrite (assign_present _ _ _ _ E). apply keys_replace.
  - rewrite (assign_absent _ _ _ E). unfold keys. rewrite map_app. reflexivity.
Qed.

Lemma keys_assign_extends (names : list string) (k : string) (v : value)
    (o o0 : object) (added : list string) :
  In k names ->
  keys o = (keys o0 ++ added)%list -> incl added names ->
  exists added',
    keys (assign k v o) = (keys o0 ++ added')%list /\ incl added' names.
Proof.
  intros Hk E Hinc. rewrite keys_assign. destruct (lookup k o).
  - exists added. split; assumption.
  - exists (added ++ [k])%list. rewrite E, app_assoc. split; [reflexivity|].
    intros x Hx. apply in_app_or in Hx. destruct Hx as [Hx|[<-|[]]]; auto.
Qed.

(** X4.  The keys of a schema object come out first and in their order;
    the only keys the normaliser adds, after them, are [type], [properties]
    and [items], and no key comes out twice. *)
Theorem keys_kept_in_order (o : object) :
  NoDup (keys o) ->
  exists out added,
    validateAndCleanSchema (VObj o) = VObj out
    /\ keys out = (keys o ++ added)%list
    /\ incl added ["type"; "properties"; "items"]
    /\ NoDup (keys out).
Proof.
  intros Hnd.
  destruct (validateAndCleanSchema_shape (VObj o)) as [out [l [E [Hout _]]]].
  exists out. pose proof E as E0. rewrite validateAndCleanSchema_equation in E.
  change (is_object (VObj o)) with true in E. cbv iota zeta in E.
  rewrite (spread_plain_object o Hnd) in E. injection E as E.
  set (names := ["type"; "properties"; "items"]).
  assert (H1 : exists a, keys (with_type o) = (keys o ++ a)%list /\ incl a names).
  { unfold with_type. destruct (negb _).
    - apply (keys_assign_extends names _ _ o o []);
        [simpl; tauto|symmetry; apply app_nil_r|intros x []].
    - exists []. split; [symmetry; apply app_nil_r|intros x []]. }
  destruct H1 as [a1 [E1 I1]].
  assert (H2 : exists a, keys (with_properties (with_type o)) = (keys o ++ a)%list
                         /\ incl a names).
  { unfold with_properties. destruct (negb _).
    - apply (keys_assign_extends names _ _ _ o a1); [simpl; tauto|assumption..].
    - exists a1. split; assumption. }
  destruct H2 as [a2 [E2 I2]].
  set (cs := with_properties (with_type o)) in *.
  set (cs3 := if is_object (prop cs "properties")
              then assign "properties"
                     (VObj (define_all clean_value
                              (settable (entries (prop cs "properties")))
                              [])) cs
              else cs) in *.
  assert (H3 : exists a, keys cs3 = (keys o ++ a)%list /\ incl a names).
  { unfold cs3. destruct (is_object _).
    - apply (keys_assign_extends names _ _ _ o a2); [simpl; tauto|assumption..].
    - exists a2. split; assumption. }
  destruct H3 as [a3 [E3 I3]].
  assert (H4 : exists a, keys (with_items cs3) = (keys o ++ a)%list /\ incl a names).
  { unfold with_items. destruct (_ && _).
    - apply (keys_assign_extends names _ _ _ o a3); [simpl; tauto|assumption..].
    - exists a3. split; assumption. }
  destruct H4 as [a4 [E4 I4]].
  exists a4. split; [exact E0|]. rewrite <- E. split; [exact E4|].
  split; [exact I4|]. rewrite E. exact Hout.
Qed.

Lemma keys_kept_in_order_witness :
  NoDup (keys [("description", VStr "d"); ("type", VStr "array")])
  /\ exists out added,
       validateAndCleanSchema
         (VObj [("description", VStr "d"); ("type", VStr "array")]) = VObj out
       /\ keys out = (["description"; "type"] ++ added)%list.
Proof.
  assert (H : NoDup (keys [("description", VStr "d"); ("type", VStr "array")])).
  { repeat constructor; simpl; intuition discriminate. }
  split; [exact H|].
  destruct (keys_kept_in_order _ H) as [out [added [E [Hk _]]]].
  exists out, added. split; [exact E|exact Hk].
Defined.

Lemma define_all_map (g : value -> value) (l acc : object) :
  NoDup (keys (acc ++ l)%list) ->
  define_all g l acc = (acc ++ map (fun kv => (fst kv, g (snd kv))) l)%list.
Proof.
  revert acc. induction l as [|[k1 v1] l IH]; intros acc Hnd; simpl.
  - rewrite app_nil_r. reflexivity.
  - fold (define_all g l (assign k1 (g v1) acc)).
    assert (Hfresh : lookup k1 acc = None).
    { apply lookup_None. intros Hin. unfold keys in Hnd. rewrite map_app in Hnd.
      simpl in Hnd. apply NoDup_remove_2 in Hnd. apply Hnd.
      apply in_or_app. left. exact Hin. }
    rewrite (assign_absent _ _ _ Hfresh), IH.
    + rewrite <- app_assoc. reflexivity.
    + unfold keys in *. rewrite !map_app in *. simpl in *.
      rewrite <- app_assoc. exact Hnd.
Qed.

(** X5.  The properties of a mapping come out in their order under their
    keys, each value normalised when its [typeof] is ["object"] and kept
    otherwise; the one entry that does not come out is the one named
    [__proto__], which the assignment hands to the prototype setter. *)
Theorem properties_kept_in_order (o po : object) :
  prop o "properties" = VObj po ->
  NoDup (keys po) ->
  exists out,
    validateAndCleanSchema (VObj o) = VObj out
    /\ prop out "properties"
       = VObj (map (fun kv =>
                      (fst kv,
                       if typeof (snd kv) =? "object"
                       then validateAndCleanSchema (snd kv) else snd kv))
                   (filter (fun kv => negb (fst kv =? "__proto__")) po)).
Proof.
  intros Hpo Hnd.
  destruct (properties_of_normalised o po Hpo) as [out [E Hq]].
  exists out. split; [exact E|]. rewrite Hq.
  rewrite (define_all_map clean_value (settable po) [])
    by (apply NoDup_settable; exact Hnd).
  reflexivity.
Qed.

Lemma properties_kept_in_order_witness :
  prop [("properties",
         VObj [("b", VNum 1); ("__proto__", VObj []); ("a", VNull)])] "properties"
  = VObj [("b", VNum 1); ("__proto__", VObj []); ("a", VNull)]
  /\ NoDup (keys [("b", VNum 1); ("__proto__", VObj []); ("a", VNull)])
  /\ exists out,
       validateAndCleanSchema
         (VObj [("properties",
                 VObj [("b", VNum 1); ("__proto__", VObj []); ("a", VNull)])])
       = VObj out
       /\ prop out "properties" = VObj [("b", VNum 1); ("a", default_schema)].
Proof.
  assert (H : NoDup (keys [("b", VNum 1); ("__proto__", VObj []); ("a", VNull)])).
  { repeat constructor; simpl; intuition discriminate. }
  split; [reflexivity|]. split; [exact H|].
  destruct (properties_kept_in_order
              [("properties",
                VObj [("b", VNum 1); ("__proto__", VObj []); ("a", VNull)])]
              [("b", VNum 1); ("__proto__", VObj []); ("a", VNull)] eq_refl H)
    as [out [E Hq]].
  exists out. split; [exact E|]. rewrite Hq. reflexivity.
Defined.

(** ** Arrays where objects are expected *)

Lemma NoDup_indexed {A : Type} (i : nat) (l : list A) :
  NoDup (map fst (indexed i l)).
Proof.
  revert i. induction l as [|x l IH]; intros i; simpl; constructor; [|apply IH].
  intros H. apply keys_indexed in H. destruct H as [j [Hj H]].
  apply index_key_inj in H. lia.
Qed.

Lemma indexed_map (g : value -> value) (i : nat) (l : list value) :
  map (fun kv => (fst kv, g (snd kv))) (indexed i l) = indexed i (map g l).
Proof.
  revert i. induction l as [|x l IH]; intros i; simpl; [reflexivity|].
  rewrite IH. reflexivity.
Qed.

Lemma length_indexed {A : Type} (i : nat) (l : list A) :
  List.length (indexed i l) = List.length l.
Proof.
  revert i. induction l as [|x l IH]; intros i; simpl; [reflexivity|].
  rewrite IH. reflexivity.
Qed.

Lemma index_key_digits (i : nat) (k : string) :
  NilEmpty.uint_of_string k = None -> index_key i <> k.
Proof.
  intros Hk H. unfold index_key in H. rewrite <- H, NilEmpty.usu in Hk.
  discriminate.
Qed.

Lemma lookup_name_indexed {A : Type} (k : string) (i : nat) (l : list A) :
  NilEmpty.uint_of_string k = None -> ~ In k (map fst (indexed i l)).
Proof.
  intros Hk H. apply keys_indexed in H. destruct H as [j [_ H]].
  symmetry in H. revert H. apply index_key_digits. exact Hk.
Qed.

Lemma lookup_indexed (i j : nat) (l : list value) :
  lookup (index_key (i + j)) (indexed i l) = nth_error l j.
Proof.
  revert i j. induction l as [|x l IH]; intros i j; simpl.
  - destruct j; reflexivity.
  - destruct j as [|j].
    + rewrite Nat.add_0_r.
      assert (E : lookup (index_key i) (indexed (S i) l) = None).
      { apply lookup_None. intros H. apply keys_indexed in H.
        destruct H as [j [Hj H]]. apply index_key_inj in H. lia. }
      rewrite E, String.eqb_refl. reflexivity.
    + replace (i + S j) with (S i + j) by lia. rewrite IH. simpl.
      destruct (nth_error l j) eqn:En; [reflexivity|].
      match goal with
      | |- context [String.eqb ?a ?b] =>
          destruct (String.eqb_spec a b) as [H|]; [|reflexivity]
      end.
      apply index_key_inj in H. lia.
Qed.

(** X6.  A [properties] that is an array comes out as an object keyed by
    the array indices, each element normalised when its [typeof] is
    ["object"] and kept otherwise. *)
Theorem array_properties_become_object (o : object) (l : list value) :
  prop o "properties" = VArr l ->
  exists out q,
    validateAndCleanSchema (VObj o) = VObj out
    /\ prop out "properties" = VObj q
    /\ List.length q = List.length l
    /\ forall i v, nth_error l i = Some v ->
         lookup (index_key i) q
         = Some (if typeof v =? "object" then validateAndCleanSchema v else v).
Proof.
  intros Hp. destruct (normalised_fields (VObj o) eq_refl)
    as [out [E [_ [_ [Hq _]]]]].
  rewrite !prop_spread_object, Hp in Hq.
  change (truthy (VArr l)) with true in Hq.
  change (typeof (VArr l) =? "object") with true in Hq.
  change (entries (VArr l)) with (indexed 0 l) in Hq. cbv iota in Hq.
  rewrite (settable_fixed (indexed 0 l)) in Hq
    by (apply lookup_name_indexed; reflexivity).
  rewrite (define_all_map clean_value (indexed 0 l) []) in Hq
    by apply NoDup_indexed.
  simpl in Hq. rewrite indexed_map in Hq.
  exists out, (indexed 0 (map clean_value l)).
  split; [exact E|]. split; [exact Hq|]. split.
  - rewrite length_indexed. apply length_map.
  - intros i v Hi. rewrite (lookup_indexed 0 i), nth_error_map, Hi. reflexivity.
Qed.

Lemma array_properties_become_object_witness :
  prop [("properties", VArr [VNull; VStr "x"])] "properties" = VArr [VNull; VStr "x"]
  /\ exists out q,
       validateAndCleanSchema (VObj [("properties", VArr [VNull; VStr "x"])])
       = VObj out
       /\ prop out "properties" = VObj q
       /\ lookup "0" q = Some default_schema
       /\ lookup "1" q = Some (VStr "x").
Proof.
  split; [reflexivity|].
  destruct (array_properties_become_object
              [("properties", VArr [VNull; VStr "x"])] [VNull; VStr "x"] eq_refl)
    as [out [q [E [Hq [_ H]]]]].
  exists out, q. split; [exact E|]. split; [exact Hq|]. split.
  - apply (H 0 VNull eq_refl).
  - apply (H 1 (VStr "x") eq_refl).
Defined.

(** X7.  A schema that is an array is copied into an object keyed by the
    array indices, to which [type: "object"] and [properties: {}] are
    added: an array is never answered with the default schema. *)
Theorem array_schema_copied (l : list value) :
  validateAndCleanSchema (VArr l)
  = VObj (indexed 0 l ++ [("type", VStr "object"); ("properties", VObj [])])%list.
Proof.
  rewrite validateAndCleanSchema_equation.
  change (is_object (VArr l)) with true. cbv iota zeta.
  assert (Es : spread (VArr l) = indexed 0 l).
  { rewrite spread_define_all. simpl.
    apply (define_all_fresh (fun x => x) (indexed 0 l) []);
      [apply NoDup_indexed|reflexivity]. }
  rewrite Es.
  assert (Lt : lookup "type" (indexed 0 l) = None)
    by (apply lookup_None, lookup_name_indexed; reflexivity).
  assert (Lp : lookup "properties" (indexed 0 l) = None)
    by (apply lookup_None, lookup_name_indexed; reflexivity).
  assert (Li : lookup "items" (indexed 0 l) = None)
    by (apply lookup_None, lookup_name_indexed; reflexivity).
  assert (E1 : with_type (indexed 0 l)
               = (indexed 0 l ++ [("type", VStr "object")])%list).
  { unfold with_type, prop. rewrite Lt. simpl. apply assign_absent, Lt. }
  rewrite E1.
  assert (E2 : with_properties (indexed 0 l ++ [("type", VStr "object")])%list
               = (indexed 0 l ++ [("type", VStr "object");
                                  ("properties", VObj [])])%list).
  { assert (L : lookup "properties" (indexed 0 l ++ [("type", VStr "object")])%list
                = None) by (rewrite lookup_app; simpl; exact Lp).
    unfold with_properties, prop. rewrite L. simpl.
    rewrite (assign_absent _ _ _ L), <- app_assoc. reflexivity. }
  rewrite E2.
  set (cs := (indexed 0 l ++ [("type", VStr "object"); ("properties", VObj [])])%list).
  assert (Lcp : lookup "properties" cs = Some (VObj []))
    by (unfold cs; rewrite lookup_app; reflexivity).
  assert (Lct : lookup "type" cs = Some (VStr "object"))
    by (unfold cs; rewrite lookup_app; reflexivity).
  assert (Hnd : NoDup (keys cs)).
  { unfold cs. rewrite <- E2, <- E1. apply NoDup_with_properties, NoDup_with_type.
    apply NoDup_indexed. }
  unfold prop at 1 2. rewrite Lcp. change (is_object (VObj [])) with true.
  cbv iota.
  change (define_all clean_value (settable (entries (VObj []))) [])
    with (@nil (string * value)).
  rewrite (assign_same_value _ _ _ Hnd Lcp).
  unfold with_items, prop. rewrite Lct. reflexivity.
Qed.

(** ** Termination *)

(** X8.  The recursion of the normaliser ends on every value: its nesting
    is bounded by the nesting depth of the input, and the result does not
    depend on how much deeper it would have been allowed to go. *)
Theorem normaliser_terminates (schema : value) :
  exists cleanSchema,
    forall fuel, depth schema < fuel ->
      validateAndCleanSchema_fuel fuel schema = Some cleanSchema.
Proof.
  exists (validateAndCleanSchema schema). intros fuel H.
  apply validateAndCleanSchema_fuel_enough. exact H.
Qed.

(** ** Tool formatter: malformed descriptors *)

(** X9.  Whenever a tool is formatted, its [parameters] are the normalised
    [inputSchema]: the fallback literal after [||] is never taken, and the
    entry always has the three fields of [function] under [type:
    "function"]. *)
Theorem formatted_tool_shape (tool entry : value) :
  formatTool tool = Ok entry ->
  exists name description inputSchema,
    get tool "name" = Ok name
    /\ get tool "inputSchema" = Ok inputSchema
    /\ entry = VObj [("type", VStr "function");
                     ("function",
                      VObj [("name", name);
                            ("description", description);
                            ("parameters", validateAndCleanSchema inputSchema)])].
Proof.
  unfold formatTool. intros H.
  destruct (get tool "name") as [name|] eqn:En; simpl in H; [|discriminate].
  destruct (get tool "description") as [d|]; simpl in H; [|discriminate].
  assert (Ht : forall x, truthy (validateAndCleanSchema x) = true).
  { intros x. pose proof (validateAndCleanSchema_is_object x) as Hx.
    unfold is_object in Hx. apply andb_prop in Hx. apply Hx. }
  destruct (truthy d).
  - simpl in H. destruct (get tool "inputSchema") as [i|]; simpl in H; [|discriminate].
    rewrite Ht in H. injection H as <-. exists name, d, i. repeat split.
  - simpl in H. destruct (ToString name) as [text|]; simpl in H; [|discriminate].
    destruct (get tool "inputSchema") as [i|]; simpl in H; [|discriminate].
    rewrite Ht in H. injection H as <-.
    exists name, (VStr ("Execute " ++ text)), i. repeat split.
Qed.

Lemma formatted_tool_shape_witness :
  formatTool (VObj [("name", VStr "open_rfa"); ("inputSchema", VNull)])
  = Ok (VObj [("type", VStr "function");
              ("function",
               VObj [("name", VStr "open_rfa");
                     ("description", VStr "Execute open_rfa");
                     ("parameters", default_schema)])])
  /\ exists name description inputSchema,
       get (VObj [("name", VStr "open_rfa"); ("inputSchema", VNull)]) "inputSchema"
       = Ok inputSchema
       /\ VObj [("type", VStr "function");
                ("function",
                 VObj [("name", VStr "open_rfa");
                       ("description", VStr "Execute open_rfa");
                       ("parameters", default_schema)])]
          = VObj [("type", VStr "function");
                  ("function",
                   VObj [("name", name);
                         ("description", description);
                         ("parameters", validateAndCleanSchema inputSchema)])].
Proof.
  split; [reflexivity|].
  destruct (formatted_tool_shape
              (VObj [("name", VStr "open_rfa"); ("inputSchema", VNull)]) _ eq_refl)
    as [name [description [inputSchema [_ [Hi He]]]]].
  exists name, description, inputSchema. split; [exact Hi|exact He].
Defined.

Lemma ToString_array (l : list value) :
  ToString (VArr l)
  = rbind (mapM element_text l) (fun parts => Ok (join_comma parts)).
Proof.
  simpl. f_equal. induction l as [|x l IH]; simpl; [reflexivity|].
  rewrite IH. destruct x; reflexivity.
Qed.

Lemma mapM_throw_inv {A B : Type} (f : A -> result B) (l : list A) (e : exn) :
  mapM f l = Throw e -> exists x, In x l /\ f x = Throw e.
Proof.
  induction l as [|x l IH]; simpl; [discriminate|].
  destruct (f x) as [y|e1] eqn:Ex; simpl.
  - destruct (mapM f l) as [ys|e2]; simpl; [discriminate|].
    intros H. injection H as <-. destruct (IH eq_refl) as [x0 [Hin Hx0]].
    exists x0. split; [right; exact Hin|exact Hx0].
  - intros H. injection H as <-. exists x. split; [left; reflexivity|exact Ex].
Qed.

Lemma ToString_throws_below (n : nat) :
  forall v e, depth v < n -> ToString v = Throw e -> e = TypeError.
Proof.
  induction n as [|n IH]; intros v e Hn; [lia|].
  destruct v as [| |[|]|z|s|l|o]; try (simpl; discriminate).
  - rewrite ToString_array.
    destruct (mapM element_text l) as [parts|e1] eqn:Em; simpl; [discriminate|].
    intros H. injection H as <-.
    apply mapM_throw_inv in Em. destruct Em as [x [Hin Hx]].
    apply (IH x); [apply depth_element in Hin; lia|].
    destruct x; simpl in Hx; try discriminate; exact Hx.
  - simpl. destruct (lookup "toString" o); [|discriminate].
    intros H. injection H as <-. reflexivity.
Qed.

Lemma ToString_throws (v : value) (e : exn) :
  ToString v = Throw e -> e = TypeError.
Proof. apply (ToString_throws_below (S (depth v))). lia. Qed.

Lemma get_throws (v : value) (k : string) (e : exn) :
  get v k = Throw e -> e = TypeError.
Proof.
  destruct v; simpl; try discriminate;
    try (intros H; injection H as <-; reflexivity);
    destruct (k =? "length"); discriminate.
Qed.

Lemma formatTool_throws (tool : value) (e : exn) :
  formatTool tool = Throw e -> e = TypeError.
Proof.
  unfold formatTool.
  destruct (get tool "name") as [name|e1] eqn:En; simpl;
    [|intros H; injection H as <-; apply (get_throws _ _ _ En)].
  destruct (get tool "description") as [d|e1] eqn:Ed; simpl;
    [|intros H; injection H as <-; apply (get_throws _ _ _ Ed)].
  destruct (truthy d); simpl.
  - destruct (get tool "inputSchema") as [i|e1] eqn:Ei; simpl;
      [destruct (truthy _); discriminate|].
    intros H; injection H as <-; apply (get_throws _ _ _ Ei).
  - destruct (ToString name) as [text|e1] eqn:Et; simpl;
      [|intros H; injection H as <-; apply (ToString_throws _ _ Et)].
    destruct (get tool "inputSchema") as [i|e1] eqn:Ei; simpl;
      [destruct (truthy _); discriminate|].
    intros H; injection H as <-; apply (get_throws _ _ _ Ei).
Qed.

Lemma mapM_throws {A B : Type} (f : A -> result B) (l : list A) (e0 : exn) :
  (forall x e, f x = Throw e -> e = e0) ->
  (exists x, In x l /\ f x = Throw e0) ->
  mapM f l = Throw e0.
Proof.
  intros Hf. induction l as [|x l IH]; intros [y [Hin Hy]]; [destruct Hin|].
  simpl. destruct (f x) as [b|e] eqn:Ex; simpl.
  - destruct Hin as [->|Hin]; [congruence|].
    rewrite IH by (exists y; split; assumption). reflexivity.
  - rewrite (Hf _ _ Ex). reflexivity.
Qed.

Lemma formatToolsForLLM_nullish (tools : list value) (tool : value) :
  In tool tools ->
  tool = VNull \/ tool = VUndefined ->
  formatToolsForLLM (VArr tools) = Throw TypeError.
Proof.
  intros Hin Hnull. unfold formatToolsForLLM. simpl.
  apply mapM_throws; [apply formatTool_throws|].
  exists tool. split; [exact Hin|]. destruct Hnull as [->| ->]; reflexivity.
Qed.

(** X10.  A tool list that holds [null] (or [undefined]) somewhere makes the
    formatter throw a [TypeError], whatever the other entries are and
    wherever the [null] stands: no partial list is returned. *)
Theorem nullish_tool_throws (before after : list value) (tool : value) :
  tool = VNull \/ tool = VUndefined ->
  formatToolsForLLM (VArr (before ++ tool :: after)%list) = Throw TypeError.
Proof.
  intros Hnull. apply (formatToolsForLLM_nullish _ tool); [|exact Hnull].
  apply in_or_app. right. left. reflexivity.
Qed.

Lemma nullish_tool_throws_witness :
  (VNull = VNull \/ VNull = VUndefined)
  /\ formatToolsForLLM (VArr [VObj [("name", VStr "find_rfa")]; VNull])
     = Throw TypeError.
Proof.
  assert (H : VNull = VNull \/ VNull = VUndefined) by (left; reflexivity).
  split; [exact H|].
  apply (nullish_tool_throws [VObj [("name", VStr "find_rfa")]] [] VNull H).
Defined.

(** ** The handlers, step by step *)

Lemma run_finish (body : action Empty_set) :
  run body = (fst (body []), finish (snd (body []))).
Proof. unfold run. destruct (body []) as [t [[]|r|e]]; reflexivity. Qed.

Lemma complete_steps (P : string) (sp : string -> bool) (e : env)
    (messages tools model stream isp : value) (t : list net_call) :
  complete P sp e messages tools model stream isp t
  = match OPENAI_API_KEY e with
    | None | Some "" =>
        (t, Return (ReplyJson 500 (error_body "OpenAI API key not configured")))
    | Some key =>
        match finalMessages P sp isp messages with
        | Throw ex => (t, Raise ex)
        | Ok final =>
            match formatted_tools tools with
            | Throw ex => (t, Raise ex)
            | Ok ft =>
                let b := JSON_stringify (requestBody model final ft stream) in
                ((t ++ [ChatCompletions ("Bearer " ++ key) b])%list,
                 relay stream (llm_api e ("Bearer " ++ key) b))
            end
        end
    end.
Proof.
  unfold complete, formatted_tools.
  destruct (OPENAI_API_KEY e) as [[|c key]|]; [reflexivity| |reflexivity].
  unfold abind, lift.
  destruct (finalMessages P sp isp messages) as [final|]; [|reflexivity].
  destruct (if truthy tools then formatToolsForLLM tools else Ok []) as [ft|];
    [|reflexivity].
  cbv zeta. unfold fetch, relay, response_json, lift, respond.
  destruct (llm_api e _ _) as [r|]; [|reflexivity].
  destruct (upstream_ok r); simpl; [destruct (truthy stream); simpl|];
    destruct (upstream_json r); reflexivity.
Qed.

Lemma complete_prefix (P : string) (sp : string -> bool) (e : env)
    (messages tools model stream isp : value) (t : list net_call) :
  complete P sp e messages tools model stream isp t
  = ((t ++ fst (complete P sp e messages tools model stream isp []))%list,
     snd (complete P sp e messages tools model stream isp [])).
Proof.
  rewrite !complete_steps.
  destruct (OPENAI_API_KEY e) as [[|c key]|]; simpl; rewrite ?app_nil_r;
    try reflexivity.
  destruct (finalMessages P sp isp messages); simpl; rewrite ?app_nil_r;
    try reflexivity.
  destruct (formatted_tools tools); simpl; rewrite ?app_nil_r; reflexivity.
Qed.

(** The destructuring at the head of both handlers. *)
Lemma destructured (body : value) :
  body <> VUndefined -> body <> VNull ->
  exists messages tools model stream isp,
    get body "messages" = Ok messages
    /\ get body "tools" = Ok tools
    /\ field body "model" (VStr "gpt-5") = Ok model
    /\ field body "stream" (VBool false) = Ok stream
    /\ field body "includeSystemPrompt" (VBool true) = Ok isp.
Proof.
  intros H1 H2.
  destruct (get_defined _ "messages" H1 H2) as [m Em].
  destruct (get_defined _ "tools" H1 H2) as [tl Et].
  destruct (field_defined _ "model" (VStr "gpt-5") H1 H2) as [md Emd].
  destruct (field_defined _ "stream" (VBool false) H1 H2) as [st Est].
  destruct (field_defined _ "includeSystemPrompt" (VBool true) H1 H2) as [isp Ei].
  exists m, tl, md, st, isp. repeat split; assumption.
Qed.

Lemma handler_index_steps (P : string) (sp : string -> bool) (e : env)
    (req : request) (messages tools model stream isp : value) :
  get (req_body req) "messages" = Ok messages ->
  get (req_body req) "tools" = Ok tools ->
  field (req_body req) "model" (VStr "gpt-5") = Ok model ->
  field (req_body req) "stream" (VBool false) = Ok stream ->
  field (req_body req) "includeSystemPrompt" (VBool true) = Ok isp ->
  handler_index P sp e req
  = run (complete P sp e messages tools model stream isp).
Proof.
  intros Em Et Emd Est Ei. unfold handler_index, run.
  rewrite abind_lift, Em, abind_lift, Et, abind_lift, Emd,
    abind_lift, Est, abind_lift, Ei. reflexivity.
Qed.

Lemma handler_gated_steps (P : string) (sp : string -> bool) (e : env)
    (req : request) (messages tools model stream isp : value) :
  get (req_body req) "messages" = Ok messages ->
  get (req_body req) "tools" = Ok tools ->
  field (req_body req) "model" (VStr "gpt-5") = Ok model ->
  field (req_body req) "stream" (VBool false) = Ok stream ->
  field (req_body req) "includeSystemPrompt" (VBool true) = Ok isp ->
  handler_gated P sp e req
  = run (abind (auth_gate e req)
           (fun _ => complete P sp e messages tools model stream isp)).
Proof.
  intros Em Et Emd Est Ei. unfold handler_gated, run.
  rewrite abind_lift, Em, abind_lift, Et, abind_lift, Emd,
    abind_lift, Est, abind_lift, Ei. reflexivity.
Qed.

Lemma nullish_body_throws (P : string) (sp : string -> bool) (e : env)
    (req : request) :
  req_body req = VUndefined \/ req_body req = VNull ->
  handler_index P sp e req = ([], ReplyException TypeError)
  /\ handler_gated P sp e req = ([], ReplyException TypeError).
Proof.
  intros H. unfold handler_index, handler_gated, run.
  rewrite !abind_lift. destruct H as [-> | ->]; split; reflexivity.
Qed.

(** The gate, case by case. *)
Lemma auth_gate_steps (e : env) (req : request) (t : list net_call) :
  auth_gate e req t
  = match req_authorization req with
    | None | Some "" =>
        (t, Return (ReplyJson 401 (error_body "No authorization token provided")))
    | Some h =>
        ((t ++ [AuthValidate (token_body h)])%list,
         match auth_service e (token_body h) with
         | None => Return (ReplyJson 500 (error_body "Authentication check failed"))
         | Some r =>
             if negb (upstream_ok r) then
               Return (ReplyJson 401 (error_body "Token validation request failed"))
             else
               match upstream_json r with
               | None | Some VUndefined | Some VNull =>
                   Return (ReplyJson 500 (error_body "Authentication check failed"))
               | Some d =>
                   if negb (truthy (optional_get d "isValid")) then
                     Return (ReplyJson 401 (error_body "Invalid token"))
                   else if negb (truthy (optional_get d "isFreeTrial")) then
                     Return (ReplyJson 403 (error_body
                       "Subscription required (Free trial expired or not active)"))
                   else Continue tt
               end
         end)
    end.
Proof.
  unfold auth_gate, token_body.
  destruct (req_authorization req) as [[|c h]|]; [reflexivity| |reflexivity].
  unfold try_catch, abind, fetch, response_json, lift, respond, ret.
  destruct (auth_service e _) as [r|]; [|reflexivity].
  destruct (upstream_ok r); simpl; [|reflexivity].
  destruct (upstream_json r) as [d|]; [|reflexivity].
  destruct d; try reflexivity;
    unfold optional_get;
    match goal with
    | |- context [get ?v "isValid"] =>
        destruct (get_defined v "isValid") as [iv Hiv]; try discriminate;
        destruct (get_defined v "isFreeTrial") as [ift Hift]; try discriminate;
        rewrite Hiv, Hift
    end;
    destruct (truthy iv); simpl; try reflexivity;
    destruct (truthy ift); reflexivity.
Qed.

Lemma nullish_dec (v : value) :
  (v = VUndefined \/ v = VNull) \/ (v <> VUndefined /\ v <> VNull).
Proof. destruct v; try (right; split; discriminate); left; auto. Qed.

(** What is known when a handler has called the LLM. *)
Lemma complete_call (P : string) (sp : string -> bool) (e : env)
    (messages tools model stream isp : value) (t : list net_call)
    (a : string) (b : option json) :
  In (ChatCompletions a b)
     (fst (complete P sp e messages tools model stream isp t)) ->
  ~ In (ChatCompletions a b) t ->
  exists key final ft,
    OPENAI_API_KEY e = Some key /\ key <> ""
    /\ a = "Bearer " ++ key
    /\ finalMessages P sp isp messages = Ok final
    /\ formatted_tools tools = Ok ft
    /\ b = JSON_stringify (requestBody model final ft stream)
    /\ complete P sp e messages tools model stream isp t
       = ((t ++ [ChatCompletions a b])%list, relay stream (llm_api e a b)).
Proof.
  rewrite complete_steps. intros Hin Hnot.
  destruct (OPENAI_API_KEY e) as [[|c key]|]; [contradiction| |contradiction].
  destruct (finalMessages P sp isp messages) as [final|]; [|contradiction].
  destruct (formatted_tools tools) as [ft|]; [|contradiction].
  cbv zeta in *. simpl fst in Hin. apply in_app_or in Hin.
  destruct Hin as [Hin|[Hin|[]]]; [contradiction|]. injection Hin as <- <-.
  exists (String c key), final, ft.
  split; [reflexivity|]. split; [discriminate|].
  repeat (split; [reflexivity|]). reflexivity.
Qed.

Lemma handler_index_call (P : string) (sp : string -> bool) (e : env)
    (req : request) (a : string) (b : option json) :
  In (ChatCompletions a b) (fst (handler_index P sp e req)) ->
  exists key messages tools model stream isp final ft,
    get (req_body req) "messages" = Ok messages
    /\ get (req_body req) "tools" = Ok tools
    /\ field (req_body req) "model" (VStr "gpt-5") = Ok model
    /\ field (req_body req) "stream" (VBool false) = Ok stream
    /\ field (req_body req) "includeSystemPrompt" (VBool true) = Ok isp
    /\ OPENAI_API_KEY e = Some key /\ key <> ""
    /\ a = "Bearer " ++ key
    /\ finalMessages P sp isp messages = Ok final
    /\ formatted_tools tools = Ok ft
    /\ b = JSON_stringify (requestBody model final ft stream)
    /\ handler_index P sp e req
       = ([ChatCompletions a b], finish (relay stream (llm_api e a b))).
Proof.
  intros Hin. destruct (nullish_dec (req_body req)) as [Hn|[H1 H2]].
  - rewrite (proj1 (nullish_body_throws P sp e req Hn)) in Hin. destruct Hin.
  - destruct (destructured _ H1 H2) as [m [tl [md [st [isp [Em [Et [Emd [Est Ei]]]]]]]]].
    rewrite (handler_index_steps P sp e req _ _ _ _ _ Em Et Emd Est Ei) in *.
    rewrite run_finish in *. simpl fst in Hin.
    destruct (complete_call P sp e m tl md st isp [] a b Hin (fun H => H))
      as [key [final [ft [Hk [Hne [Ha [Hf [Hft [Hb Hc]]]]]]]]].
    exists key, m, tl, md, st, isp, final, ft.
    repeat (split; [assumption|]). rewrite Hc. reflexivity.
Qed.

Lemma handler_gated_call (P : string) (sp : string -> bool) (e : env)
    (req : request) (a : string) (b : option json) :
  In (ChatCompletions a b) (fst (handler_gated P sp e req)) ->
  exists h r d key messages tools model stream isp final ft,
    req_authorization req = Some h /\ h <> ""
    /\ auth_service e (token_body h) = Some r
    /\ upstream_ok r = true
    /\ upstream_json r = Some d
    /\ truthy (optional_get d "isValid") = true
    /\ truthy (optional_get d "isFreeTrial") = true
    /\ get (req_body req) "messages" = Ok messages
    /\ get (req_body req) "tools" = Ok tools
    /\ field (req_body req) "model" (VStr "gpt-5") = Ok model
    /\ field (req_body req) "stream" (VBool false) = Ok stream
    /\ field (req_body req) "includeSystemPrompt" (VBool true) = Ok isp
    /\ OPENAI_API_KEY e = Some key /\ key <> ""
    /\ a = "Bearer " ++ key
    /\ finalMessages P sp isp messages = Ok final
    /\ formatted_tools tools = Ok ft
    /\ b = JSON_stringify (requestBody model final ft stream)
    /\ handler_gated P sp e req
       = ([AuthValidate (token_body h); ChatCompletions a b],
          finish (relay stream (llm_api e a b))).
Proof.
  intros Hin. destruct (nullish_dec (req_body req)) as [Hn|[H1 H2]].
  - rewrite (proj2 (nullish_body_throws P sp e req Hn)) in Hin. destruct Hin.
  - destruct (destructured _ H1 H2) as [m [tl [md [st [isp [Em [Et [Emd [Est Ei]]]]]]]]].
    rewrite (handler_gated_steps P sp e req _ _ _ _ _ Em Et Emd Est Ei) in *.
    rewrite run_finish in *. unfold abind in *. rewrite auth_gate_steps in *.
    destruct (req_authorization req) as [[|c h]|]; [destruct Hin| |destruct Hin].
    simpl app in *.
    destruct (auth_service e (token_body (String c h))) as [r|] eqn:Ear;
      [|destruct Hin as [Hin|[]]; discriminate].
    destruct (upstream_ok r) eqn:Eok; simpl negb in *; cbv iota in *;
      [|destruct Hin as [Hin|[]]; discriminate].
    destruct (upstream_json r) as [d|] eqn:Ej;
      [|destruct Hin as [Hin|[]]; discriminate].
    assert (Hgo : truthy (optional_get d "isValid") = true
                  /\ truthy (optional_get d "isFreeTrial") = true
                  /\ d <> VUndefined /\ d <> VNull).
    { destruct d; try (destruct Hin as [Hin|[]]; discriminate);
        destruct (truthy (optional_get _ "isValid"));
        try (destruct Hin as [Hin|[]]; discriminate);
        destruct (truthy (optional_get _ "isFreeTrial"));
        try (destruct Hin as [Hin|[]]; discriminate);
        repeat split; discriminate. }
    destruct Hgo as [Hv [Hf [Hd1 Hd2]]].
    assert (Hcont :
      match d with
      | VUndefined | VNull =>
          Return (ReplyJson 500 (error_body "Authentication check failed"))
      | _ =>
          if negb (truthy (optional_get d "isValid"))
          then Return (ReplyJson 401 (error_body "Invalid token"))
          else if negb (truthy (optional_get d "isFreeTrial"))
               then Return (ReplyJson 403 (error_body
                 "Subscription required (Free trial expired or not active)"))
               else Continue tt
      end = Continue tt).
    { rewrite Hv, Hf. destruct d; try reflexivity; congruence. }
    rewrite Hcont in *.
    assert (Hnot : ~ In (ChatCompletions a b)
                       [AuthValidate (token_body (String c h))])
      by (intros [H|[]]; discriminate).
    destruct (complete_call P sp e m tl md st isp _ a b Hin Hnot)
      as [key [final [ft [Hk [Hne [Ha [Hfm [Hft [Hb Hc]]]]]]]]].
    exists (String c h), r, d, key, m, tl, md, st, isp, final, ft.
    split; [reflexivity|]. split; [discriminate|].
    repeat (split; [reflexivity || assumption|]).
    rewrite Hc. reflexivity.
Qed.

Lemma either_handler_call (P : string) (sp : string -> bool)
    (handler : env -> request -> list net_call * reply)
    (e : env) (req : request) (a : string) (b : option json) :
  handler = handler_index P sp \/ handler = handler_gated P sp ->
  In (ChatCompletions a b) (fst (handler e req)) ->
  exists key tools model stream final ft before,
    get (req_body req) "tools" = Ok tools
    /\ field (req_body req) "model" (VStr "gpt-5") = Ok model
    /\ field (req_body req) "stream" (VBool false) = Ok stream
    /\ OPENAI_API_KEY e = Some key /\ key <> ""
    /\ a = "Bearer " ++ key
    /\ formatted_tools tools = Ok ft
    /\ b = JSON_stringify (requestBody model final ft stream)
    /\ handler e req
       = ((before ++ [ChatCompletions a b])%list,
          finish (relay stream (llm_api e a b))).
Proof.
  intros [-> | ->] Hin.
  - destruct (handler_index_call P sp e req a b Hin)
      as [key [m [tl [md [st [isp [final [ft
           [_ [Et [Emd [Est [_ [Hk [Hne [Ha [_ [Hft [Hb Hh]]]]]]]]]]]]]]]]]]].
    exists key, tl, md, st, final, ft, [].
    repeat (split; [assumption|]). exact Hh.
  - destruct (handler_gated_call P sp e req a b Hin)
      as [h [r [d [key [m [tl [md [st [isp [final [ft
           [_ [_ [_ [_ [_ [_ [_ [_ [Et [Emd [Est [_ [Hk [Hne [Ha [_ [Hft [Hb Hh]]]]]]]]]]]]]]]]]]]]]]]]]]]]].
    exists key, tl, md, st, final, ft, [AuthValidate (token_body h)].
    repeat (split; [assumption|]). exact Hh.
Qed.

(** ** Relaying the answer of the LLM *)

(** X11.  When the LLM answers with a status outside 200..299 and a JSON
    body, either handler answers with that status and that body. *)
Theorem upstream_error_relayed (P : string) (sp : string -> bool)
    (handler : env -> request -> list net_call * reply)
    (e : env) (req : request) (a : string) (b : option json)
    (response : upstream) (error : value) :
  handler = handler_index P sp \/ handler = handler_gated P sp ->
  In (ChatCompletions a b) (fst (handler e req)) ->
  llm_api e a b = Some response ->
  upstream_ok response = false ->
  upstream_json response = Some error ->
  snd (handler e req) = ReplyJson (upstream_status response) error.
Proof.
  intros Hh Hin Hr Hok Hj.
  destruct (either_handler_call P sp handler e req a b Hh Hin)
    as [key [tl [md [st [final [ft [before [_ [_ [_ [_ [_ [_ [_ [_ E]]]]]]]]]]]]]]].
  rewrite E. simpl. unfold relay. rewrite Hr, Hok, Hj. reflexivity.
Qed.

(** X12.  When the LLM answers with a success status and a JSON body and
    [stream] is falsy (or omitted), either handler answers 200 with that
    body, unchanged. *)
Theorem upstream_success_relayed (P : string) (sp : string -> bool)
    (handler : env -> request -> list net_call * reply)
    (e : env) (req : request) (a : string) (b : option json)
    (response : upstream) (data stream : value) :
  handler = handler_index P sp \/ handler = handler_gated P sp ->
  In (ChatCompletions a b) (fst (handler e req)) ->
  field (req_body req) "stream" (VBool false) = Ok stream ->
  truthy stream = false ->
  llm_api e a b = Some response ->
  upstream_ok response = true ->
  upstream_json response = Some data ->
  snd (handler e req) = ReplyJson 200 data.
Proof.
  intros Hh Hin Hs Hst Hr Hok Hj.
  destruct (either_handler_call P sp handler e req a b Hh Hin)
    as [key [tl [md [st [final [ft [before [_ [_ [Est [_ [_ [_ [_ [_ E]]]]]]]]]]]]]]].
  rewrite Hs in Est. injection Est as <-.
  rewrite E. simpl. unfold relay. rewrite Hr, Hok, Hst, Hj. reflexivity.
Qed.

(** X13.  When the LLM answers with a success status and [stream] is
    truthy, either handler pipes the upstream response; its body is not
    parsed. *)
Theorem upstream_stream_piped (P : string) (sp : string -> bool)
    (handler : env -> request -> list net_call * reply)
    (e : env) (req : request) (a : string) (b : option json)
    (response : upstream) (stream : value) :
  handler = handler_index P sp \/ handler = handler_gated P sp ->
  In (ChatCompletions a b) (fst (handler e req)) ->
  field (req_body req) "stream" (VBool false) = Ok stream ->
  truthy stream = true ->
  llm_api e a b = Some response ->
  upstream_ok response = true ->
  snd (handler e req) = ReplyStream response.
Proof.
  intros Hh Hin Hs Hst Hr Hok.
  destruct (either_handler_call P sp handler e req a b Hh Hin)
    as [key [tl [md [st [final [ft [before [_ [_ [Est [_ [_ [_ [_ [_ E]]]]]]]]]]]]]]].
  rewrite Hs in Est. injection Est as <-.
  rewrite E. simpl. unfold relay. rewrite Hr, Hok, Hst. reflexivity.
Qed.

(** X14.  A failed transport of the LLM call, or an LLM body that is not
    JSON where the handler parses it (an error status, or no streaming),
    ends in the handler's catch-all answer 500 carrying the exception. *)
Theorem upstream_failure_caught (P : string) (sp : string -> bool)
    (handler : env -> request -> list net_call * reply)
    (e : env) (req : request) (a : string) (b : option json) :
  handler = handler_index P sp \/ handler = handler_gated P sp ->
  In (ChatCompletions a b) (fst (handler e req)) ->
  (llm_api e a b = None -> snd (handler e req) = ReplyException FetchError)
  /\ (forall response stream,
        llm_api e a b = Some response ->
        upstream_json response = None ->
        field (req_body req) "stream" (VBool false) = Ok stream ->
        upstream_ok response = false \/ truthy stream = false ->
        snd (handler e req) = ReplyException SyntaxError).
Proof.
  intros Hh Hin.
  destruct (either_handler_call P sp handler e req a b Hh Hin)
    as [key [tl [md [st [final [ft [before [_ [_ [Est [_ [_ [_ [_ [_ E]]]]]]]]]]]]]]].
  rewrite E. simpl. unfold relay. split.
  - intros ->. reflexivity.
  - intros response stream Hr Hj Hs Hcase. rewrite Hs in Est. injection Est as <-.
    rewrite Hr, Hj. destruct (upstream_ok response); simpl; [|reflexivity].
    destruct Hcase as [Hc|Hc]; [discriminate|]. rewrite Hc. reflexivity.
Qed.

Lemma upstream_error_relayed_witness :
  In (ChatCompletions "Bearer sk-test" (hello_outbound "prompt"))
     (fst (handler_index "prompt" (fun _ => false)
             (answering_env 429 (Some (error_body "rate limit")))
             anonymous_request))
  /\ snd (handler_index "prompt" (fun _ => false)
            (answering_env 429 (Some (error_body "rate limit")))
            anonymous_request)
     = ReplyJson 429 (error_body "rate limit").
Proof.
  assert (H : In (ChatCompletions "Bearer sk-test" (hello_outbound "prompt"))
                (fst (handler_index "prompt" (fun _ => false)
                        (answering_env 429 (Some (error_body "rate limit")))
                        anonymous_request)))
    by (left; reflexivity).
  split; [exact H|].
  apply (upstream_error_relayed "prompt" (fun _ => false)
           (handler_index "prompt" (fun _ => false))
           (answering_env 429 (Some (error_body "rate limit")))
           anonymous_request _ _
           {| upstream_status := 429;
              upstream_json := Some (error_body "rate limit") |}
           (error_body "rate limit") (or_introl eq_refl) H);
    reflexivity.
Defined.

Lemma upstream_success_relayed_witness :
  In (ChatCompletions "Bearer sk-test" (hello_outbound "prompt"))
     (fst (handler_gated "prompt" (fun _ => false)
             (answering_env 200 (Some (VObj [("id", VStr "c")])))
             rejected_request))
  /\ snd (handler_gated "prompt" (fun _ => false)
            (answering_env 200 (Some (VObj [("id", VStr "c")])))
            rejected_request)
     = ReplyJson 200 (VObj [("id", VStr "c")]).
Proof.
  assert (H : In (ChatCompletions "Bearer sk-test" (hello_outbound "prompt"))
                (fst (handler_gated "prompt" (fun _ => false)
                        (answering_env 200 (Some (VObj [("id", VStr "c")])))
                        rejected_request)))
    by (right; left; reflexivity).
  split; [exact H|].
  apply (upstream_success_relayed "prompt" (fun _ => false)
           (handler_gated "prompt" (fun _ => false))
           (answering_env 200 (Some (VObj [("id", VStr "c")])))
           rejected_request _ _
           {| upstream_status := 200;
              upstream_json := Some (VObj [("id", VStr "c")]) |}
           (VObj [("id", VStr "c")]) (VBool false) (or_intror eq_refl) H);
    reflexivity.
Defined.

Lemma upstream_stream_piped_witness :
  In (ChatCompletions "Bearer sk-test" streaming_outbound)
     (fst (handler_index "prompt" (fun _ => false)
             (answering_env 200 None) streaming_request))
  /\ snd (handler_index "prompt" (fun _ => false)
            (answering_env 200 None) streaming_request)
     = ReplyStream {| upstream_status := 200; upstream_json := None |}.
Proof.
  assert (H : In (ChatCompletions "Bearer sk-test" streaming_outbound)
                (fst (handler_index "prompt" (fun _ => false)
                        (answering_env 200 None) streaming_request)))
    by (left; reflexivity).
  split; [exact H|].
  apply (upstream_stream_piped "prompt" (fun _ => false)
           (handler_index "prompt" (fun _ => false))
           (answering_env 200 None) streaming_request _ _
           {| upstream_status := 200; upstream_json := None |}
           (VBool true) (or_introl eq_refl) H);
    reflexivity.
Defined.

Lemma upstream_failure_caught_witness :
  In (ChatCompletions "Bearer sk-test" (hello_outbound "prompt"))
     (fst (handler_index "prompt" (fun _ => false)
             unreachable_llm_env anonymous_request))
  /\ snd (handler_index "prompt" (fun _ => false)
            unreachable_llm_env anonymous_request)
     = ReplyException FetchError.
Proof.
  assert (H : In (ChatCompletions "Bearer sk-test" (hello_outbound "prompt"))
                (fst (handler_index "prompt" (fun _ => false)
                        unreachable_llm_env anonymous_request)))
    by (left; reflexivity).
  split; [exact H|].
  apply (proj1 (upstream_failure_caught "prompt" (fun _ => false)
                  (handler_index "prompt" (fun _ => false))
                  unreachable_llm_env anonymous_request _ _
                  (or_introl eq_refl) H)).
  reflexivity.
Defined.

(** ** Before the LLM call *)

(** X15.  Without a configured API key (unset or empty) the handler of
    [src/index.js] answers 500 "OpenAI API key not configured" and makes no
    call, whatever the payload holds; the gated handler never calls the
    LLM. *)
Theorem missing_api_key (P : string) (sp : string -> bool) (e : env) (req : request) :
  OPENAI_API_KEY e = None \/ OPENAI_API_KEY e = Some "" ->
  req_body req <> VUndefined -> req_body req <> VNull ->
  handler_index P sp e req
  = ([], ReplyJson 500 (error_body "OpenAI API key not configured"))
  /\ forall a b, ~ In (ChatCompletions a b) (fst (handler_gated P sp e req)).
Proof.
  intros Hk H1 H2. split.
  - destruct (destructured _ H1 H2) as [m [tl [md [st [isp [Em [Et [Emd [Est Ei]]]]]]]]].
    rewrite (handler_index_steps P sp e req _ _ _ _ _ Em Et Emd Est Ei).
    rewrite run_finish, complete_steps. destruct Hk as [-> | ->]; reflexivity.
  - intros a b Hin. destruct (handler_gated_call P sp e req a b Hin)
      as [h [r [d [key [m [tl [md [st [isp [final [ft
           [_ [_ [_ [_ [_ [_ [_ [_ [_ [_ [_ [_ [Hkey [Hne _]]]]]]]]]]]]]]]]]]]]]]]]].
    destruct Hk as [Hk|Hk]; rewrite Hk in Hkey; [discriminate|].
    injection Hkey as <-. apply Hne. reflexivity.
Qed.

Lemma missing_api_key_witness :
  handler_index "prompt" (fun _ => false)
    {| OPENAI_API_KEY := None;
       auth_service := fun _ => None; llm_api := fun _ _ => None |}
    anonymous_request
  = ([], ReplyJson 500 (error_body "OpenAI API key not configured")).
Proof.
  apply (missing_api_key "prompt" (fun _ => false)
           {| OPENAI_API_KEY := None;
              auth_service := fun _ => None; llm_api := fun _ _ => None |}
           anonymous_request (or_introl eq_refl)); discriminate.
Defined.

(** X16.  A request without a parsed body ([req.body] undefined or null)
    ends in the catch-all answer 500 with a [TypeError] and no call, in the
    gated handler even before the [Authorization] header is looked at. *)
Theorem missing_body_rejected (P : string) (sp : string -> bool) (e : env)
    (req : request) :
  req_body req = VUndefined \/ req_body req = VNull ->
  handler_index P sp e req = ([], ReplyException TypeError)
  /\ handler_gated P sp e req = ([], ReplyException TypeError).
Proof. apply nullish_body_throws. Qed.

Lemma missing_body_rejected_witness :
  handler_gated "prompt" (fun _ => false) rejecting_env
    {| req_authorization := None; req_body := VUndefined |}
  = ([], ReplyException TypeError).
Proof.
  apply (proj2 (missing_body_rejected "prompt" (fun _ => false) rejecting_env
                  {| req_authorization := None; req_body := VUndefined |}
                  (or_introl eq_refl))).
Defined.

Lemma finalMessages_throws (P : string) (sp : string -> bool)
    (isp messages : value) (ex : exn) :
  finalMessages P sp isp messages = Throw ex -> ex = TypeError.
Proof.
  unfold finalMessages. destruct (truthy isp && truthy messages); [|discriminate].
  destruct (get messages "length") as [len|e1] eqn:El; simpl;
    [|intros H; injection H as <-; apply (get_throws _ _ _ El)].
  assert (Hg : forall e0, greater_than_zero sp len = Throw e0 -> e0 = TypeError).
  { intros e0. unfold greater_than_zero.
    destruct len; try discriminate;
      match goal with
      | |- context [ToString ?v] =>
          destruct (ToString v) as [s|e1] eqn:Es; simpl; [discriminate|];
          intros H; injection H as <-; apply (ToString_throws _ _ Es)
      end. }
  destruct (greater_than_zero sp len) as [[|]|e1]; simpl;
    [|discriminate|intros H; injection H as <-; apply (Hg _ eq_refl)].
  destruct (get messages "0") as [first|e1] eqn:Ef; simpl;
    [|intros H; injection H as <-; apply (get_throws _ _ _ Ef)].
  destruct (negb _); [|discriminate].
  destruct messages; simpl; try discriminate;
    intros H; injection H as <-; reflexivity.
Qed.

(** X17.  A [tools] array that holds [null] somewhere is refused before any
    call to the LLM: the handler of [src/index.js] answers with the
    catch-all 500 and makes no call, and the gated handler never calls the
    LLM. *)
Theorem null_tool_rejected (P : string) (sp : string -> bool) (e : env)
    (req : request) (tools : list value) (tool : value) (key : string) :
  get (req_body req) "tools" = Ok (VArr tools) ->
  In tool tools ->
  tool = VNull \/ tool = VUndefined ->
  OPENAI_API_KEY e = Some key -> key <> "" ->
  handler_index P sp e req = ([], ReplyException TypeError)
  /\ forall a b, ~ In (ChatCompletions a b) (fst (handler_gated P sp e req)).
Proof.
  intros Ht Hin Hnull Hk Hne.
  assert (Hft : formatted_tools (VArr tools) = Throw TypeError)
    by (apply (formatToolsForLLM_nullish tools tool Hin Hnull)).
  split.
  - assert (H1 : req_body req <> VUndefined) by (intros E; rewrite E in Ht; discriminate).
    assert (H2 : req_body req <> VNull) by (intros E; rewrite E in Ht; discriminate).
    destruct (destructured _ H1 H2) as [m [tl [md [st [isp [Em [Et [Emd [Est Ei]]]]]]]]].
    rewrite Ht in Et. injection Et as <-.
    rewrite (handler_index_steps P sp e req _ _ _ _ _ Em Ht Emd Est Ei).
    rewrite run_finish, complete_steps, Hk.
    destruct key as [|c key]; [congruence|].
    destruct (finalMessages P sp isp m) as [final|ex] eqn:Ef.
    + rewrite Hft. reflexivity.
    + rewrite (finalMessages_throws _ _ _ _ _ Ef). reflexivity.
  - intros a b Hc. destruct (handler_gated_call P sp e req a b Hc)
      as [h [r [d [key' [m [tl [md [st [isp [final [ft
           [_ [_ [_ [_ [_ [_ [_ [_ [Et [_ [_ [_ [_ [_ [_ [_ [Hf _]]]]]]]]]]]]]]]]]]]]]]]]]]]].
    rewrite Ht in Et. injection Et as <-. rewrite Hft in Hf. discriminate.
Qed.

Lemma null_tool_rejected_witness :
  In VNull [VNull]
  /\ handler_index "prompt" (fun _ => false) rejecting_env
       {| req_authorization := None;
          req_body := VObj [("messages", VArr []); ("tools", VArr [VNull])] |}
     = ([], ReplyException TypeError).
Proof.
  assert (H : In VNull [VNull]) by (left; reflexivity).
  split; [exact H|].
  apply (null_tool_rejected "prompt" (fun _ => false) rejecting_env
           {| req_authorization := None;
              req_body := VObj [("messages", VArr []); ("tools", VArr [VNull])] |}
           [VNull] VNull "sk-test" eq_refl H (or_introl eq_refl) eq_refl).
  discriminate.
Defined.

(** ** The calls a request causes *)

Lemma complete_trace_cases (P : string) (sp : string -> bool) (e : env)
    (messages tools model stream isp : value) :
  fst (complete P sp e messages tools model stream isp []) = []
  \/ exists a b,
       fst (complete P sp e messages tools model stream isp [])
       = [ChatCompletions a b].
Proof.
  destruct (complete_calls P sp e messages tools model stream isp [])
    as [H|[key [final [ft [_ [_ [_ H]]]]]]]; [left; exact H|].
  right. eexists. eexists. exact H.
Qed.

(** X18.  A request causes at most one call in [src/index.js], to the LLM,
    and at most two in the gated copy: the auth service first, and the LLM
    only after it. *)
Theorem call_order (P : string) (sp : string -> bool) (e : env) (req : request) :
  (fst (handler_index P sp e req) = []
   \/ exists a b, fst (handler_index P sp e req) = [ChatCompletions a b])
  /\ (fst (handler_gated P sp e req) = []
      \/ (exists t, fst (handler_gated P sp e req) = [AuthValidate t])
      \/ exists t a b,
           fst (handler_gated P sp e req)
           = [AuthValidate t; ChatCompletions a b]).
Proof.
  destruct (nullish_dec (req_body req)) as [Hn|[H1 H2]].
  - destruct (nullish_body_throws P sp e req Hn) as [-> ->]. split; left; reflexivity.
  - destruct (destructured _ H1 H2) as [m [tl [md [st [isp [Em [Et [Emd [Est Ei]]]]]]]]].
    rewrite (handler_index_steps P sp e req _ _ _ _ _ Em Et Emd Est Ei).
    rewrite (handler_gated_steps P sp e req _ _ _ _ _ Em Et Emd Est Ei).
    rewrite !run_finish. simpl fst. split; [apply complete_trace_cases|].
    unfold abind. rewrite auth_gate_steps.
    destruct (req_authorization req) as [[|c h]|]; [left; reflexivity| |left; reflexivity].
    simpl app.
    match goal with
    | |- context [match ?s with Continue _ => _ | Return _ => _ | Raise _ => _ end] =>
        destruct s as [u|r|ex]
    end; try (right; left; eexists; reflexivity).
    rewrite complete_prefix. simpl fst.
    destruct (complete_trace_cases P sp e m tl md st isp) as [->|[a [b ->]]].
    + right. left. eexists. reflexivity.
    + right. right. eexists. eexists. eexists. reflexivity.
Qed.

(** ** What is sent to the LLM *)

Lemma requestBody_head (model final : value) (ft : list value) (stream : value) :
  exists ms,
    JSON_stringify (requestBody model final ft stream) = Some (JObj ms)
    /\ member "model" ms = JSON_stringify model
    /\ member "messages" ms = JSON_stringify final
    /\ member "stream" ms = JSON_stringify stream.
Proof.
  unfold requestBody. cbn [JSON_stringify].
  destruct (JSON_stringify model), (JSON_stringify final),
    (JSON_stringify stream), ft as [|x ft];
    cbn [List.length Nat.ltb Nat.leb JSON_stringify];
    eexists; (split; [reflexivity|]); cbn [member String.eqb Ascii.eqb Bool.eqb andb];
    repeat split; reflexivity.
Qed.

(** X19.  Every call to the LLM carries [Authorization: Bearer] followed by
    the configured key; its body has [model] ["gpt-5"] when the payload
    omits [model] and the payload's value otherwise, and [stream] [false]
    when the payload omits [stream]. *)
Theorem outbound_defaults (P : string) (sp : string -> bool)
    (handler : env -> request -> list net_call * reply)
    (e : env) (req : request) (a : string) (b : option json) :
  handler = handler_index P sp \/ handler = handler_gated P sp ->
  In (ChatCompletions a b) (fst (handler e req)) ->
  exists key ms,
    OPENAI_API_KEY e = Some key /\ a = "Bearer " ++ key
    /\ b = Some (JObj ms)
    /\ (get (req_body req) "model" = Ok VUndefined ->
        member "model" ms = Some (JStr "gpt-5"))
    /\ (forall v, get (req_body req) "model" = Ok v -> v <> VUndefined ->
                  member "model" ms = JSON_stringify v)
    /\ (get (req_body req) "stream" = Ok VUndefined ->
        member "stream" ms = Some (JBool false)).
Proof.
  intros Hh Hin.
  destruct (either_handler_call P sp handler e req a b Hh Hin)
    as [key [tl [md [st [final [ft [before
         [_ [Emd [Est [Hk [_ [Ha [_ [Hb _]]]]]]]]]]]]]]].
  destruct (requestBody_head md final ft st) as [ms [Hms [Hmodel [_ Hstream]]]].
  exists key, ms. split; [exact Hk|]. split; [exact Ha|].
  split; [rewrite Hb; exact Hms|].
  unfold field in Emd, Est.
  split; [|split].
  - intros Hg. rewrite Hg in Emd. simpl in Emd. injection Emd as <-. exact Hmodel.
  - intros v Hg Hv. rewrite Hg in Emd. simpl in Emd.
    destruct v; try contradiction; injection Emd as <-; exact Hmodel.
  - intros Hg. rewrite Hg in Est. simpl in Est. injection Est as <-. exact Hstream.
Qed.

Lemma outbound_defaults_witness :
  In (ChatCompletions "Bearer sk-test" (hello_outbound "prompt"))
     (fst (handler_index "prompt" (fun _ => false) rejecting_env anonymous_request))
  /\ exists ms,
       hello_outbound "prompt" = Some (JObj ms)
       /\ member "model" ms = Some (JStr "gpt-5")
       /\ member "stream" ms = Some (JBool false).
Proof.
  assert (H : In (ChatCompletions "Bearer sk-test" (hello_outbound "prompt"))
                (fst (handler_index "prompt" (fun _ => false)
                        rejecting_env anonymous_request)))
    by (left; reflexivity).
  split; [exact H|].
  destruct (outbound_defaults "prompt" (fun _ => false)
              (handler_index "prompt" (fun _ => false))
              rejecting_env anonymous_request _ _ (or_introl eq_refl) H)
    as [key [ms [_ [_ [Hb [Hm [_ Hs]]]]]]].
  exists ms. split; [exact Hb|]. split; [apply Hm|apply Hs]; reflexivity.
Defined.

(** ** The gate in front of the pipeline *)

Lemma handler_gated_after_gate (P : string) (sp : string -> bool) (e : env)
    (req : request) :
  req_body req <> VUndefined -> req_body req <> VNull ->
  handler_gated P sp e req
  = match auth_gate e req [] with
    | (t, Continue _) =>
        ((t ++ fst (handler_index P sp e req))%list,
         snd (handler_index P sp e req))
    | (t, Return r) => (t, r)
    | (t, Raise ex) => (t, ReplyException ex)
    end.
Proof.
  intros H1 H2.
  destruct (destructured _ H1 H2) as [m [tl [md [st [isp [Em [Et [Emd [Est Ei]]]]]]]]].
  rewrite (handler_index_steps P sp e req _ _ _ _ _ Em Et Emd Est Ei).
  rewrite (handler_gated_steps P sp e req _ _ _ _ _ Em Et Emd Est Ei).
  rewrite !run_finish. unfold abind.
  destruct (auth_gate e req []) as [t [u|r|ex]]; try reflexivity.
  rewrite complete_prefix. reflexivity.
Qed.

(** X20.  The gate fails closed: when the call to the auth service fails in
    transport, or its body is not JSON or is [null], the gated handler
    answers 500 "Authentication check failed" after that one call. *)
Theorem gate_fails_closed (P : string) (sp : string -> bool) (e : env)
    (req : request) (h : string) :
  req_authorization req = Some h -> h <> "" ->
  req_body req <> VUndefined -> req_body req <> VNull ->
  auth_service e (token_body h) = None
  \/ (exists r, auth_service e (token_body h) = Some r
                /\ upstream_ok r = true
                /\ (upstream_json r = None \/ upstream_json r = Some VNull)) ->
  handler_gated P sp e req
  = ([AuthValidate (token_body h)],
     ReplyJson 500 (error_body "Authentication check failed")).
Proof.
  intros Ha Hh H1 H2 Hfail.
  rewrite (handler_gated_after_gate P sp e req H1 H2), auth_gate_steps, Ha.
  destruct h as [|c h]; [congruence|]. simpl app.
  destruct Hfail as [-> |[r [-> [-> [-> | ->]]]]]; reflexivity.
Qed.

Lemma gate_fails_closed_witness :
  handler_gated "prompt" (fun _ => false)
    {| OPENAI_API_KEY := Some "sk-test";
       auth_service := fun _ => None; llm_api := fun _ _ => None |}
    rejected_request
  = ([AuthValidate (token_body "Bearer expired")],
     ReplyJson 500 (error_body "Authentication check failed")).
Proof.
  apply (gate_fails_closed "prompt" (fun _ => false)
           {| OPENAI_API_KEY := Some "sk-test";
              auth_service := fun _ => None; llm_api := fun _ _ => None |}
           rejected_request "Bearer expired" eq_refl);
    try discriminate.
  left. reflexivity.
Defined.

(** X21.  When the auth service answers with a status outside 200..299,
    the gated handler answers 401 "Token validation request failed" without
    reading the body of that answer. *)
Theorem validation_request_failed (P : string) (sp : string -> bool) (e : env)
    (req : request) (h : string) (r : upstream) :
  req_authorization req = Some h -> h <> "" ->
  req_body req <> VUndefined -> req_body req <> VNull ->
  auth_service e (token_body h) = Some r ->
  upstream_ok r = false ->
  handler_gated P sp e req
  = ([AuthValidate (token_body h)],
     ReplyJson 401 (error_body "Token validation request failed")).
Proof.
  intros Ha Hh H1 H2 Hr Hok.
  rewrite (handler_gated_after_gate P sp e req H1 H2), auth_gate_steps, Ha.
  destruct h as [|c h]; [congruence|]. simpl app. rewrite Hr, Hok. reflexivity.
Qed.

Lemma validation_request_failed_witness :
  handler_gated "prompt" (fun _ => false)
    {| OPENAI_API_KEY := Some "sk-test";
       auth_service := fun _ =>
         Some {| upstream_status := 503; upstream_json := None |};
       llm_api := fun _ _ => None |}
    rejected_request
  = ([AuthValidate (token_body "Bearer expired")],
     ReplyJson 401 (error_body "Token validation request failed")).
Proof.
  apply (validation_request_failed "prompt" (fun _ => false)
           {| OPENAI_API_KEY := Some "sk-test";
              auth_service := fun _ =>
                Some {| upstream_status := 503; upstream_json := None |};
              llm_api := fun _ _ => None |}
           rejected_request "Bearer expired"
           {| upstream_status := 503; upstream_json := None |} eq_refl);
    try discriminate; reflexivity.
Defined.

(** X22.  An [Authorization] header that is the empty string counts as
    missing: 401 "No authorization token provided" and no call. *)
Theorem empty_authorization_rejected (P : string) (sp : string -> bool) (e : env)
    (req : request) :
  req_authorization req = Some "" ->
  req_body req <> VUndefined -> req_body req <> VNull ->
  handler_gated P sp e req
  = ([], ReplyJson 401 (error_body "No authorization token provided")).
Proof.
  intros Ha H1 H2.
  rewrite (handler_gated_after_gate P sp e req H1 H2), auth_gate_steps, Ha.
  reflexivity.
Qed.

Lemma empty_authorization_rejected_witness :
  handler_gated "prompt" (fun _ => false) (answering_env 200 None)
    {| req_authorization := Some ""; req_body := hello_body |}
  = ([], ReplyJson 401 (error_body "No authorization token provided")).
Proof.
  apply (empty_authorization_rejected "prompt" (fun _ => false)
           (answering_env 200 None)
           {| req_authorization := Some ""; req_body := hello_body |} eq_refl);
    discriminate.
Defined.

(** X25.  The gated handler calls the LLM only after the auth service has
    answered, with a success status, a body whose [isValid] and
    [isFreeTrial] are both truthy; the call to the auth service carries the
    token of the header and comes first. *)
Theorem llm_call_requires_entitlement (P : string) (sp : string -> bool) (e : env)
    (req : request) (a : string) (b : option json) :
  In (ChatCompletions a b) (fst (handler_gated P sp e req)) ->
  exists h r d,
    req_authorization req = Some h
    /\ auth_service e (token_body h) = Some r
    /\ upstream_ok r = true
    /\ upstream_json r = Some d
    /\ truthy (optional_get d "isValid") = true
    /\ truthy (optional_get d "isFreeTrial") = true
    /\ fst (handler_gated P sp e req)
       = [AuthValidate (token_body h); ChatCompletions a b].
Proof.
  intros Hin. destruct (handler_gated_call P sp e req a b Hin)
    as [h [r [d [key [m [tl [md [st [isp [final [ft
         [Ha [_ [Hr [Hok [Hj [Hv [Hf [_ [_ [_ [_ [_ [_ [_ [_ [_ [_ [_ E]]]]]]]]]]]]]]]]]]]]]]]]]]]]].
  exists h, r, d. repeat (split; [assumption|]). rewrite E. reflexivity.
Qed.

Lemma llm_call_requires_entitlement_witness :
  In (ChatCompletions "Bearer sk-test" (hello_outbound "prompt"))
     (fst (handler_gated "prompt" (fun _ => false)
             (answering_env 200 None) rejected_request))
  /\ fst (handler_gated "prompt" (fun _ => false)
            (answering_env 200 None) rejected_request)
     = [AuthValidate (token_body "Bearer expired");
        ChatCompletions "Bearer sk-test" (hello_outbound "prompt")].
Proof.
  assert (H : In (ChatCompletions "Bearer sk-test" (hello_outbound "prompt"))
                (fst (handler_gated "prompt" (fun _ => false)
                        (answering_env 200 None) rejected_request)))
    by (right; left; reflexivity).
  split; [exact H|].
  destruct (llm_call_requires_entitlement "prompt" (fun _ => false)
              (answering_env 200 None) rejected_request _ _ H)
    as [h [r [d [Ha [_ [_ [_ [_ [_ E]]]]]]]]].
  injection Ha as <-. exact E.
Defined.

Lemma get_ok_defined (v : value) (k : string) (x : value) :
  get v k = Ok x -> v <> VUndefined /\ v <> VNull.
Proof. destruct v; simpl; intros H; try discriminate; split; discriminate. Qed.

(** X26.  The two copies of the handler carry different system prompts:
    [Pg] stands for the constant of the gated copy, [Pi] for the one of
    [src/index.js].  Once the gate lets a request through, and the
    messages sent on do not depend on which of the two prompts is used (the
    prompt is not inserted, or the prompts are equal), the gated handler
    does what the handler of [src/index.js] does on that request: the same
    reply, and the same call to the LLM after the call to the auth
    service. *)
Theorem gate_then_pipeline (Pg Pi : string) (sp : string -> bool) (e : env)
    (req : request) (h : string) (r : upstream) (d messages isp : value) :
  get (req_body req) "messages" = Ok messages ->
  field (req_body req) "includeSystemPrompt" (VBool true) = Ok isp ->
  finalMessages Pg sp isp messages = finalMessages Pi sp isp messages ->
  req_authorization req = Some h -> h <> "" ->
  auth_service e (token_body h) = Some r ->
  upstream_ok r = true ->
  upstream_json r = Some d ->
  truthy (optional_get d "isValid") = true ->
  truthy (optional_get d "isFreeTrial") = true ->
  handler_gated Pg sp e req
  = (AuthValidate (token_body h) :: fst (handler_index Pi sp e req),
     snd (handler_index Pi sp e req)).
Proof.
  intros Em Ei Hfinal Ha Hh Hr Hok Hj Hv Hf.
  destruct (get_ok_defined _ _ _ Em) as [H1 H2].
  assert (Hsame : handler_index Pg sp e req = handler_index Pi sp e req).
  { destruct (destructured _ H1 H2)
      as [m [tl [md [st [isp' [Em' [Et [Emd [Est Ei']]]]]]]]].
    rewrite Em in Em'. injection Em' as <-.
    rewrite Ei in Ei'. injection Ei' as <-.
    rewrite (handler_index_steps Pg sp e req _ _ _ _ _ Em Et Emd Est Ei).
    rewrite (handler_index_steps Pi sp e req _ _ _ _ _ Em Et Emd Est Ei).
    rewrite !run_finish, !complete_steps, Hfinal. reflexivity. }
  rewrite <- Hsame.
  rewrite (handler_gated_after_gate Pg sp e req H1 H2), auth_gate_steps, Ha.
  destruct h as [|c h]; [congruence|]. simpl app. rewrite Hr, Hok, Hj. simpl negb.
  cbv iota. rewrite Hv, Hf. simpl negb. cbv iota.
  destruct d; try reflexivity; simpl in Hv; discriminate.
Qed.

Lemma gate_then_pipeline_witness :
  handler_gated "prompt of the gated copy" (fun _ => false)
    (answering_env 200 (Some (VObj [("id", VStr "c")])))
    {| req_authorization := Some "Bearer t";
       req_body :=
         VObj [("messages", VArr [VObj [("role", VStr "user");
                                        ("content", VStr "hello")]]);
               ("includeSystemPrompt", VBool false)] |}
  = (AuthValidate (token_body "Bearer t")
     :: fst (handler_index "prompt of index.js" (fun _ => false)
               (answering_env 200 (Some (VObj [("id", VStr "c")])))
               {| req_authorization := Some "Bearer t";
                  req_body :=
                    VObj [("messages", VArr [VObj [("role", VStr "user");
                                                   ("content", VStr "hello")]]);
                          ("includeSystemPrompt", VBool false)] |}),
     snd (handler_index "prompt of index.js" (fun _ => false)
            (answering_env 200 (Some (VObj [("id", VStr "c")])))
            {| req_authorization := Some "Bearer t";
               req_body :=
                 VObj [("messages", VArr [VObj [("role", VStr "user");
                                                ("content", VStr "hello")]]);
                       ("includeSystemPrompt", VBool false)] |})).
Proof.
  apply (gate_then_pipeline "prompt of the gated copy" "prompt of index.js"
           (fun _ => false)
           (answering_env 200 (Some (VObj [("id", VStr "c")])))
           _ "Bearer t"
           {| upstream_status := 200;
              upstream_json := Some (VObj [("isValid", VBool true);
                                           ("isFreeTrial", VBool true)]) |}
           (VObj [("isValid", VBool true); ("isFreeTrial", VBool true)])
           (VArr [VObj [("role", VStr "user"); ("content", VStr "hello")]])
           (VBool false));
    try discriminate; reflexivity.
Defined.

(** ** The token of the header *)

Lemma substring_whole (s : string) : substring 0 (String.length s) s = s.
Proof. induction s as [|c s IH]; simpl; [reflexivity|]. rewrite IH. reflexivity. Qed.

(** X27.  The scheme is matched without regard to case and needs white
    space after it: from ["Bearer <token>"], in any spelling of the scheme,
    the token is what follows the space, and a header that is the bare
    scheme is taken whole as the token. *)
Theorem strip_bearer_token (scheme token : string) :
  lowercase scheme = "bearer" ->
  skip_spaces token = token ->
  strip_bearer (scheme ++ " " ++ token) = token
  /\ strip_bearer scheme = scheme.
Proof.
  intros Hs Ht.
  destruct scheme as [|c1 [|c2 [|c3 [|c4 [|c5 [|c6 [|c7 s]]]]]]];
    simpl in Hs; try discriminate.
  split.
  - unfold strip_bearer. simpl substring. cbn [lowercase]. rewrite Hs.
    simpl. rewrite substring_whole. exact Ht.
  - unfold strip_bearer. simpl substring. cbn [lowercase]. rewrite Hs. reflexivity.
Qed.

Lemma strip_bearer_token_witness :
  lowercase "BEARER" = "bearer"
  /\ skip_spaces "abc.def" = "abc.def"
  /\ strip_bearer "BEARER abc.def" = "abc.def".
Proof.
  split; [reflexivity|]. split; [reflexivity|].
  apply (proj1 (strip_bearer_token "BEARER" "abc.def" eq_refl eq_refl)).
Defined.

Lemma gated_missing_authorization_witness :
  handler_gated "prompt" (fun _ => false) (answering_env 200 None) anonymous_request
  = ([], ReplyJson 401 (error_body "No authorization token provided")).
Proof.
  apply (gated_missing_authorization "prompt" (fun _ => false)
           (answering_env 200 None) anonymous_request eq_refl); discriminate.
Defined.

Lemma gated_auth_decision_witness :
  handler_gated "prompt" (fun _ => false) rejecting_env rejected_request
  = ([AuthValidate (JSON_stringify (VObj [("token", VStr (strip_bearer "Bearer expired"))]))],
     ReplyJson 401 (error_body "Invalid token")).
Proof.
  apply (proj1 (gated_auth_decision "prompt" (fun _ => false) rejecting_env
                  rejected_request "Bearer expired"
                  {| upstream_status := 200;
                     upstream_json := Some (VObj [("isValid", VBool false);
                                                  ("isFreeTrial", VBool false)]) |}
                  [("isValid", VBool false); ("isFreeTrial", VBool false)]
                  eq_refl ltac:(discriminate) ltac:(discriminate)
                  ltac:(discriminate) eq_refl eq_refl eq_refl)).
  reflexivity.
Defined.

(** ** A descriptor without a name *)

Lemma JSON_stringify_object (o : object) :
  exists ms, JSON_stringify (VObj o) = Some (JObj ms).
Proof. simpl. eexists. reflexivity. Qed.

(** X28.  A descriptor that has neither [name] nor [description] is still
    formatted: its description is ["Execute undefined"], and what is
    written for it has no [name] at all. *)
Theorem nameless_tool_entry (o : object) :
  prop o "name" = VUndefined ->
  truthy (prop o "description") = false ->
  exists entry members,
    formatTool (VObj o) = Ok entry
    /\ JSON_stringify entry
       = Some (JObj [("type", JStr "function"); ("function", JObj members)])
    /\ member "name" members = None
    /\ member "description" members = Some (JStr "Execute undefined")
    /\ member "parameters" members
       = JSON_stringify (validateAndCleanSchema (prop o "inputSchema")).
Proof.
  intros Hn Hd.
  assert (Ht : truthy (validateAndCleanSchema (prop o "inputSchema")) = true).
  { pose proof (validateAndCleanSchema_is_object (prop o "inputSchema")) as H.
    unfold is_object in H. apply andb_prop in H. apply H. }
  destruct (validateAndCleanSchema_shape (prop o "inputSchema"))
    as [out [l [E _]]].
  eexists. eexists. split.
  - unfold formatTool. simpl. rewrite Hn, Hd, Ht. simpl. reflexivity.
  - rewrite E. cbn [JSON_stringify]. repeat split; reflexivity.
Qed.

Lemma nameless_tool_entry_witness :
  prop [("inputSchema", VNull)] "name" = VUndefined
  /\ exists entry,
       formatTool (VObj [("inputSchema", VNull)]) = Ok entry
       /\ JSON_stringify entry
          = Some (JObj [("type", JStr "function");
                        ("function",
                         JObj [("description", JStr "Execute undefined");
                               ("parameters",
                                JObj [("type", JStr "object");
                                      ("properties", JObj [])])])]).
Proof.
  split; [reflexivity|].
  destruct (nameless_tool_entry [("inputSchema", VNull)] eq_refl eq_refl)
    as [entry [members [Hf _]]].
  exists entry. split; [exact Hf|].
  vm_compute in Hf. injection Hf as <-. reflexivity.
Defined.
